(** * TaskMaster-Pro: the in-memory task backend of [backend/main.py]

    A shallow embedding of the FastAPI handlers of [backend/main.py] and the
    properties of its authentication and per-user task store.

    - Python [int] is [Z]; [str] is [string]; [Optional[str]] is
      [option string].
    - The module-level globals [users_db], [tasks_db], [current_user_id] and
      [current_task_id] are the fields of one record [db], threaded through
      the handlers by a state-and-exception monad: an [HTTPException] raised
      by a handler keeps whatever the handler had written before raising.
    - [users_db] is a Python [dict]; its iteration order (insertion order) is
      what [get_current_user] and [logout] scan, so it is an association list
      in insertion order.
    - The three things the handlers read from outside the program are inputs:
      [hashlib.sha256] (a section variable), the draw of
      [secrets.token_hex(32)] (an argument of [login]) and the reading of
      [datetime.datetime.now()] (an argument of the handlers that stamp). *)

From Stdlib Require Import ZArith List String Ascii Bool Lia Permutation Sorted.
Import ListNotations.

Local Open Scope string_scope.
Local Open Scope list_scope.
Local Open Scope Z_scope.

(** ** Data models (pydantic classes and the dictionaries of [users_db]) *)

Module UserCreate.
Record t := mk { email : string; name : string; password : string }.
End UserCreate.

Module User.
Record t := mk { email : string; name : string; id : Z }.
End User.

Module LoginRequest.
Record t := mk { email : string; password : string }.
End LoginRequest.

(** [TaskCreate] adds nothing to [TaskBase]: the validated request model. *)
Module TaskCreate.
Record t := mk {
  title : string;
  description : option string;
  priority : string;
  status : string }.
End TaskCreate.

Module Task.
Record t := mk {
  title : string;
  description : option string;
  priority : string;
  status : string;
  id : Z;
  user_id : Z;
  created_at : string;
  updated_at : string }.
End Task.

(** The value stored under an email in [users_db]: a dict with the keys
    ["id"], ["name"], ["password_hash"] and, after a login, ["token"]. *)
Module UserData.
Record t := mk {
  id : Z;
  name : string;
  password_hash : string;
  token : option string }.
End UserData.

(** The JSON body of POST /tasks and PUT /tasks/{id} as the client sent it:
    [None] is a key the body omits. *)
Module TaskBody.
Record t := mk {
  title : string;
  description : option string;
  priority : option string;
  status : option string }.
End TaskBody.

(** The defaults declared by [TaskBase]. *)
Definition TaskBase_default_description : option string := None.
Definition TaskBase_default_priority : string := "media".
Definition TaskBase_default_status : string := "pendiente".

Definition from_default {A} (d : A) (o : option A) : A :=
  match o with Some a => a | None => d end.

(** What pydantic builds from a body: each omitted key takes its declared
    default. *)
Definition TaskCreate_of_body (b : TaskBody.t) : TaskCreate.t :=
  TaskCreate.mk
    (TaskBody.title b)
    (match TaskBody.description b with
     | Some d => Some d
     | None => TaskBase_default_description
     end)
    (from_default TaskBase_default_priority (TaskBody.priority b))
    (from_default TaskBase_default_status (TaskBody.status b)).

(** ** Responses *)

Record HTTPException := { status_code : Z; detail : string }.

Module RegisterResponse.
Record t := mk { message : string; user_id : Z }.
End RegisterResponse.

Module LoginResponse.
Record t := mk { message : string; token : string; user : User.t }.
End LoginResponse.

Module DeleteResponse.
Record t := mk { message : string; task : Task.t }.
End DeleteResponse.

Module HealthResponse.
Record t := mk {
  status : string;
  timestamp : string;
  total_users : Z;
  total_tasks : Z }.
End HealthResponse.

(** ** The clock: [datetime.datetime.now()] and its two printers *)

Record datetime := {
  year : Z; month : Z; day : Z;
  hour : Z; minute : Z; second : Z; microsecond : Z }.

Definition digit (n : Z) : ascii := ascii_of_nat (48 + Z.to_nat (n mod 10)).

Fixpoint zero_padded (width : nat) (n : Z) (acc : string) : string :=
  match width with
  | O => acc
  | S w => zero_padded w (n / 10) (String (digit n) acc)
  end.

(** [now.strftime("%Y-%m-%d %H:%M")], for the four-digit years on which the
    platforms agree. *)
Definition strftime_minute (now : datetime) : string :=
  zero_padded 4 (year now)
    (String "-" (zero_padded 2 (month now)
    (String "-" (zero_padded 2 (day now)
    (String " " (zero_padded 2 (hour now)
    (String ":" (zero_padded 2 (minute now) "")))))))).

(** [now.isoformat()]: the fraction is printed only when it is not zero. *)
Definition isoformat (now : datetime) : string :=
  zero_padded 4 (year now)
    (String "-" (zero_padded 2 (month now)
    (String "-" (zero_padded 2 (day now)
    (String "T" (zero_padded 2 (hour now)
    (String ":" (zero_padded 2 (minute now)
    (String ":" (zero_padded 2 (second now)
      (if microsecond now =? 0 then ""
       else String "." (zero_padded 6 (microsecond now) "")))))))))))).

(** The readings of [datetime.datetime.now()] whose year every platform
    prints in four digits. *)
Definition clock_reading (now : datetime) : Prop :=
  1000 <= year now <= 9999 /\ 1 <= month now <= 12 /\ 1 <= day now <= 31 /\
  0 <= hour now <= 23 /\ 0 <= minute now <= 59.

(** The value of a decimal digit. *)
Definition digit_value (c : ascii) : option Z :=
  let n := Z.of_nat (nat_of_ascii c) in
  if (48 <=? n) && (n <=? 57) then Some (n - 48) else None.

(** Reads [width] decimal digits off the front of [s], most significant
    first, on top of [acc]. *)
Fixpoint read_digits (width : nat) (s : string) (acc : Z) : option (Z * string) :=
  match width with
  | O => Some (acc, s)
  | S w =>
      match s with
      | String c rest =>
          match digit_value c with
          | Some d => read_digits w rest (10 * acc + d)
          | None => None
          end
      | EmptyString => None
      end
  end.

(** Reads the character [c] off the front of [s]. *)
Definition read_char (c : ascii) (s : string) : option string :=
  match s with
  | String c' rest => if Ascii.eqb c c' then Some rest else None
  | EmptyString => None
  end.

(** What a stamp of the form YYYY-MM-DD HH:MM says: its year, month, day,
    hour and minute; [None] for a string of another form. *)
Definition read_minute_stamp (stamp : string) : option (Z * Z * Z * Z * Z) :=
  match read_digits 4 stamp 0 with
  | Some (y, s1) =>
  match read_char "-" s1 with
  | Some s2 =>
  match read_digits 2 s2 0 with
  | Some (m, s3) =>
  match read_char "-" s3 with
  | Some s4 =>
  match read_digits 2 s4 0 with
  | Some (d, s5) =>
  match read_char " " s5 with
  | Some s6 =>
  match read_digits 2 s6 0 with
  | Some (h, s7) =>
  match read_char ":" s7 with
  | Some s8 =>
  match read_digits 2 s8 0 with
  | Some (mi, EmptyString) => Some (y, m, d, h, mi)
  | _ => None
  end | None => None end | None => None end | None => None end
  | None => None end | None => None end | None => None end
  | None => None end | None => None end.

(** ** The in-memory database and the handler monad *)

Record db := {
  users_db : list (string * UserData.t);
  tasks_db : list Task.t;
  current_user_id : Z;
  current_task_id : Z }.

Definition init_db : db :=
  {| users_db := []; tasks_db := []; current_user_id := 1; current_task_id := 1 |}.

Inductive outcome (A : Type) : Type :=
| Return (a : A)
| Raise (e : HTTPException).
Arguments Return {A} a.
Arguments Raise {A} e.

Definition handler (A : Type) : Type := db -> outcome A * db.

Definition ret {A} (a : A) : handler A := fun s => (Return a, s).

Definition raise {A} (e : HTTPException) : handler A := fun s => (Raise e, s).

Definition bind {A B} (m : handler A) (k : A -> handler B) : handler B :=
  fun s =>
    match m s with
    | (Return a, s') => k a s'
    | (Raise e, s') => (Raise e, s')
    end.

Definition gets {A} (f : db -> A) : handler A := fun s => (Return (f s), s).

Definition modify (f : db -> db) : handler unit := fun s => (Return tt, f s).

Declare Scope handler_scope.
Delimit Scope handler_scope with handler.
Notation "x <- m ;; k" := (bind m (fun x => k))
  (at level 100, m at next level, right associativity) : handler_scope.
Notation "m ;;; k" := (bind m (fun _ => k))
  (at level 100, right associativity) : handler_scope.
Local Open Scope handler_scope.

Definition set_users_db (us : list (string * UserData.t)) (s : db) : db :=
  {| users_db := us; tasks_db := tasks_db s;
     current_user_id := current_user_id s; current_task_id := current_task_id s |}.

Definition set_tasks_db (ts : list Task.t) (s : db) : db :=
  {| users_db := users_db s; tasks_db := ts;
     current_user_id := current_user_id s; current_task_id := current_task_id s |}.

Definition set_current_user_id (n : Z) (s : db) : db :=
  {| users_db := users_db s; tasks_db := tasks_db s;
     current_user_id := n; current_task_id := current_task_id s |}.

Definition set_current_task_id (n : Z) (s : db) : db :=
  {| users_db := users_db s; tasks_db := tasks_db s;
     current_user_id := current_user_id s; current_task_id := n |}.

(** *** Python dict operations on the insertion-ordered association list *)

(** [d.get(k)] *)
Fixpoint dict_get {V} (k : string) (d : list (string * V)) : option V :=
  match d with
  | [] => None
  | (k', v) :: rest => if String.eqb k' k then Some v else dict_get k rest
  end.

(** [k in d] *)
Definition dict_contains {V} (k : string) (d : list (string * V)) : bool :=
  match dict_get k d with Some _ => true | None => false end.

(** [d[k] = v]: an existing key keeps its place, a new key goes last. *)
Fixpoint dict_set {V} (k : string) (v : V) (d : list (string * V)) : list (string * V) :=
  match d with
  | [] => [(k, v)]
  | (k', v') :: rest =>
      if String.eqb k' k then (k', v) :: rest else (k', v') :: dict_set k v rest
  end.

(** Mutation of the value object stored under [k], in place. *)
Fixpoint dict_update {V} (k : string) (f : V -> V) (d : list (string * V)) : list (string * V) :=
  match d with
  | [] => []
  | (k', v') :: rest =>
      if String.eqb k' k then (k', f v') :: rest else (k', v') :: dict_update k f rest
  end.

(** [user_data.get("token") == token], for a [token] that is a [str]. *)
Definition holds_token (user_data : UserData.t) (token : string) : bool :=
  match UserData.token user_data with
  | Some t => String.eqb t token
  | None => false
  end.

Definition with_token (tok : option string) (user_data : UserData.t) : UserData.t :=
  UserData.mk (UserData.id user_data) (UserData.name user_data)
    (UserData.password_hash user_data) tok.

(** [l.pop(i)]: [None] stands for Python's [IndexError]. *)
Fixpoint pop {A} (i : nat) (l : list A) : option (A * list A) :=
  match l, i with
  | [], _ => None
  | x :: rest, O => Some (x, rest)
  | x :: rest, S j =>
      match pop j rest with
      | Some (y, rest') => Some (y, x :: rest')
      | None => None
      end
  end.

(** [sorted(l, key=lambda x: x.id, reverse=True)]: Python's sort is stable,
    also with [reverse=True]; tasks of equal id keep their order. *)
Fixpoint insert_desc (x : Task.t) (l : list Task.t) : list Task.t :=
  match l with
  | [] => [x]
  | y :: rest =>
      if Task.id x <? Task.id y then y :: insert_desc x rest else x :: y :: rest
  end.

Definition sorted_by_id_reverse (l : list Task.t) : list Task.t :=
  fold_right insert_desc [] l.

(** An exception that is not an [HTTPException] ([KeyError], [IndexError])
    reaches the client as FastAPI's 500. *)
Definition internal_server_error : HTTPException :=
  {| status_code := 500; detail := "Internal Server Error" |}.

(** ** The handlers *)

Section Backend.

(** [hashlib.sha256(password.encode()).hexdigest()] *)
Variable hash_password : string -> string.

Definition verify_user (email password : string) : handler (option User.t) :=
  user_data <- gets (fun s => dict_get email (users_db s)) ;;
  match user_data with
  | Some ud =>
      if String.eqb (UserData.password_hash ud) (hash_password password)
      then ret (Some (User.mk email (UserData.name ud) (UserData.id ud)))
      else ret None
  | None => ret None
  end.

(** POST /register *)
Definition register (user_data : UserCreate.t) : handler RegisterResponse.t :=
  present <- gets (fun s => dict_contains (UserCreate.email user_data) (users_db s)) ;;
  if (present : bool) then
    raise {| status_code := 400; detail := "El usuario ya existe" |}
  else
    modify (fun s =>
      set_users_db
        (dict_set (UserCreate.email user_data)
           (UserData.mk (current_user_id s) (UserCreate.name user_data)
              (hash_password (UserCreate.password user_data)) None)
           (users_db s)) s) ;;;
    modify (fun s => set_current_user_id (current_user_id s + 1) s) ;;;
    n <- gets current_user_id ;;
    ret (RegisterResponse.mk "Usuario registrado exitosamente" (n - 1)).

(** POST /login; [token] is the draw of [secrets.token_hex(32)]. *)
Definition login (login_data : LoginRequest.t) (token : string)
  : handler LoginResponse.t :=
  user <- verify_user (LoginRequest.email login_data) (LoginRequest.password login_data) ;;
  match user with
  | None => raise {| status_code := 401; detail := "Credenciales inválidas" |}
  | Some user =>
      present <- gets (fun s => dict_contains (LoginRequest.email login_data) (users_db s)) ;;
      if (present : bool) then
        modify (fun s =>
          set_users_db
            (dict_update (LoginRequest.email login_data) (with_token (Some token))
               (users_db s)) s) ;;;
        ret (LoginResponse.mk "Login exitoso" token user)
      else raise internal_server_error
  end.

(** The loop of [get_current_user] over [users_db.items()]. *)
Fixpoint first_holder (token : string) (items : list (string * UserData.t))
  : option (string * UserData.t) :=
  match items with
  | [] => None
  | (email, user_data) :: rest =>
      if holds_token user_data token then Some (email, user_data)
      else first_holder token rest
  end.

Definition get_current_user (token : string) : handler User.t :=
  items <- gets users_db ;;
  match first_holder token items with
  | Some (email, user_data) =>
      ret (User.mk email (UserData.name user_data) (UserData.id user_data))
  | None => raise {| status_code := 401; detail := "Token inválido" |}
  end.

(** GET /tasks *)
Definition get_tasks (token : string) : handler (list Task.t) :=
  user <- get_current_user token ;;
  tasks <- gets tasks_db ;;
  let user_tasks := filter (fun task => Task.user_id task =? User.id user) tasks in
  ret (sorted_by_id_reverse user_tasks).

(** POST /tasks *)
Definition create_task (task_data : TaskCreate.t) (token : string) (now : datetime)
  : handler Task.t :=
  user <- get_current_user token ;;
  let current_time := strftime_minute now in
  next_id <- gets current_task_id ;;
  let new_task :=
    Task.mk (TaskCreate.title task_data) (TaskCreate.description task_data)
      (TaskCreate.priority task_data) (TaskCreate.status task_data)
      next_id (User.id user) current_time current_time in
  modify (fun s => set_tasks_db (tasks_db s ++ [new_task]) s) ;;;
  modify (fun s => set_current_task_id (current_task_id s + 1) s) ;;;
  ret new_task.

(** The test of the three task loops. *)
Definition is_task_of (task_id owner : Z) (task : Task.t) : bool :=
  (Task.id task =? task_id) && (Task.user_id task =? owner).

Definition overwrite (task_data : TaskCreate.t) (now : datetime) (task : Task.t) : Task.t :=
  Task.mk (TaskCreate.title task_data) (TaskCreate.description task_data)
    (TaskCreate.priority task_data) (TaskCreate.status task_data)
    (Task.id task) (Task.user_id task) (Task.created_at task) (strftime_minute now).

(** The loop of [update_task]: the first matching task is overwritten in
    place and returned; [None] when the loop runs to its end. *)
Fixpoint update_scan (task_id owner : Z) (task_data : TaskCreate.t) (now : datetime)
  (tasks : list Task.t) : option (Task.t * list Task.t) :=
  match tasks with
  | [] => None
  | task :: rest =>
      if is_task_of task_id owner task then
        let task' := overwrite task_data now task in Some (task', task' :: rest)
      else
        match update_scan task_id owner task_data now rest with
        | Some (found, rest') => Some (found, task :: rest')
        | None => None
        end
  end.

(** PUT /tasks/{task_id} *)
Definition update_task (task_id : Z) (task_data : TaskCreate.t) (token : string)
  (now : datetime) : handler Task.t :=
  user <- get_current_user token ;;
  tasks <- gets tasks_db ;;
  match update_scan task_id (User.id user) task_data now tasks with
  | Some (task, tasks') =>
      modify (set_tasks_db tasks') ;;; ret task
  | None => raise {| status_code := 404; detail := "Tarea no encontrada" |}
  end.

(** The loop of [delete_task] over [enumerate(tasks_db)], from index [i]. *)
Fixpoint delete_scan (task_id owner : Z) (i : nat) (tasks : list Task.t) : option nat :=
  match tasks with
  | [] => None
  | task :: rest =>
      if is_task_of task_id owner task then Some i
      else delete_scan task_id owner (S i) rest
  end.

(** DELETE /tasks/{task_id} *)
Definition delete_task (task_id : Z) (token : string) : handler DeleteResponse.t :=
  user <- get_current_user token ;;
  tasks <- gets tasks_db ;;
  match delete_scan task_id (User.id user) 0 tasks with
  | Some i =>
      match pop i tasks with
      | Some (deleted_task, tasks') =>
          modify (set_tasks_db tasks') ;;;
          ret (DeleteResponse.mk "Tarea eliminada" deleted_task)
      | None => raise internal_server_error
      end
  | None => raise {| status_code := 404; detail := "Tarea no encontrada" |}
  end.

(** The loop of [get_task]. *)
Fixpoint get_scan (task_id owner : Z) (tasks : list Task.t) : option Task.t :=
  match tasks with
  | [] => None
  | task :: rest =>
      if is_task_of task_id owner task then Some task
      else get_scan task_id owner rest
  end.

(** GET /tasks/{task_id} *)
Definition get_task (task_id : Z) (token : string) : handler Task.t :=
  user <- get_current_user token ;;
  tasks <- gets tasks_db ;;
  match get_scan task_id (User.id user) tasks with
  | Some task => ret task
  | None => raise {| status_code := 404; detail := "Tarea no encontrada" |}
  end.

(** GET /health *)
Definition health_check (now : datetime) : handler HealthResponse.t :=
  users <- gets users_db ;;
  tasks <- gets tasks_db ;;
  ret (HealthResponse.mk "healthy" (isoformat now)
         (Z.of_nat (List.length users)) (Z.of_nat (List.length tasks))).

(** The loop of [logout] over [users_db.values()]: the first holder of the
    token loses its ["token"] key. *)
Fixpoint logout_scan (token : string) (items : list (string * UserData.t))
  : option (list (string * UserData.t)) :=
  match items with
  | [] => None
  | (email, user_data) :: rest =>
      if holds_token user_data token then Some ((email, with_token None user_data) :: rest)
      else
        match logout_scan token rest with
        | Some rest' => Some ((email, user_data) :: rest')
        | None => None
        end
  end.

(** POST /logout *)
Definition logout (token : string) : handler string :=
  items <- gets users_db ;;
  match logout_scan token items with
  | Some items' => modify (set_users_db items') ;;; ret "Logout exitoso"
  | None => raise {| status_code := 401; detail := "Token inválido" |}
  end.

(** ** Requests and runs of the server *)

(** A request as the application receives it after FastAPI has validated
    it, together with what the handler reads from outside while serving it. *)
Inductive request : Type :=
| POST_register (user_data : UserCreate.t)
| POST_login (login_data : LoginRequest.t) (token_hex : string)
| POST_logout (token : string)
| GET_tasks (token : string)
| POST_tasks (body : TaskBody.t) (token : string) (now : datetime)
| PUT_task (task_id : Z) (body : TaskBody.t) (token : string) (now : datetime)
| DELETE_task (task_id : Z) (token : string)
| GET_task (task_id : Z) (token : string)
| GET_health (now : datetime).

(** The database after a request has been served. *)
Definition serve (r : request) (s : db) : db :=
  match r with
  | POST_register user_data => snd (register user_data s)
  | POST_login login_data token_hex => snd (login login_data token_hex s)
  | POST_logout token => snd (logout token s)
  | GET_tasks token => snd (get_tasks token s)
  | POST_tasks body token now => snd (create_task (TaskCreate_of_body body) token now s)
  | PUT_task task_id body token now =>
      snd (update_task task_id (TaskCreate_of_body body) token now s)
  | DELETE_task task_id token => snd (delete_task task_id token s)
  | GET_task task_id token => snd (get_task task_id token s)
  | GET_health now => snd (health_check now s)
  end.

Definition run (reqs : list request) (s : db) : db :=
  fold_left (fun s r => serve r s) reqs s.

(** The states the process can be in: those a list of requests leads to from
    the module's initial globals. *)
Definition reachable (s : db) : Prop := exists reqs, s = run reqs init_db.

(** The token a request makes the server issue, if it is a login. *)
Definition drawn_token (r : request) : option string :=
  match r with
  | POST_login _ token_hex => Some token_hex
  | _ => None
  end.

(** No account holds [token]. *)
Definition unheld (token : string) (s : db) : Prop :=
  forall email user_data,
    In (email, user_data) (users_db s) -> UserData.token user_data <> Some token.

Definition not_found : HTTPException :=
  {| status_code := 404; detail := "Tarea no encontrada" |}.

Definition invalid_token : HTTPException :=
  {| status_code := 401; detail := "Token inválido" |}.

Definition invalid_credentials : HTTPException :=
  {| status_code := 401; detail := "Credenciales inválidas" |}.

Definition duplicate_account : HTTPException :=
  {| status_code := 400; detail := "El usuario ya existe" |}.

(** ** Consistency of the database

    What every reachable state satisfies: the keys of the dict are distinct,
    account ids and task ids grow along the insertion order, and both
    counters are above every id handed out. *)

Definition account_id (item : string * UserData.t) : Z := UserData.id (snd item).

Record consistent (s : db) : Prop := {
  keys_unique : NoDup (map fst (users_db s));
  account_ids_increase : StronglySorted Z.lt (map account_id (users_db s));
  account_ids_below :
    Forall (fun n => 1 <= n < current_user_id s) (map account_id (users_db s));
  task_ids_increase : StronglySorted Z.lt (map Task.id (tasks_db s));
  task_ids_below :
    Forall (fun n => 1 <= n < current_task_id s) (map Task.id (tasks_db s));
  counters_start_at_one : 1 <= current_user_id s /\ 1 <= current_task_id s }.

(** [tasks] splits at its first element satisfying [p]. *)
Definition first_match (p : Task.t -> bool) (tasks l1 : list Task.t) (t : Task.t)
  (l2 : list Task.t) : Prop :=
  tasks = l1 ++ t :: l2 /\ p t = true /\ Forall (fun x => p x = false) l1.

(** *** What one request can do to the database

    The accounts: nothing, one account appended under a new email with the
    next id and no token, or the token of one account replaced (by the token
    a login drew, or by nothing). *)
Inductive users_step (r : request) (s s' : db) : Prop :=
| users_same :
    users_db s' = users_db s -> current_user_id s' = current_user_id s ->
    users_step r s s'
| users_registered (email : string) (user_data : UserData.t) :
    dict_get email (users_db s) = None ->
    users_db s' = users_db s ++ [(email, user_data)] ->
    UserData.id user_data = current_user_id s ->
    UserData.token user_data = None ->
    current_user_id s' = current_user_id s + 1 ->
    users_step r s s'
| users_token (l1 l2 : list (string * UserData.t)) (email : string)
    (user_data : UserData.t) (tok : option string) :
    users_db s = l1 ++ (email, user_data) :: l2 ->
    users_db s' = l1 ++ (email, with_token tok user_data) :: l2 ->
    tok = None \/ tok = drawn_token r ->
    current_user_id s' = current_user_id s ->
    users_step r s s'.

(** The tasks: nothing, one task appended with the next id, one task
    replaced by a task of the same id, owner and creation stamp, or one task
    removed. *)
Inductive tasks_step (s s' : db) : Prop :=
| tasks_same :
    tasks_db s' = tasks_db s -> current_task_id s' = current_task_id s ->
    tasks_step s s'
| tasks_created (task : Task.t) :
    tasks_db s' = tasks_db s ++ [task] ->
    Task.id task = current_task_id s ->
    current_task_id s' = current_task_id s + 1 ->
    tasks_step s s'
| tasks_updated (l1 l2 : list Task.t) (task task' : Task.t) :
    tasks_db s = l1 ++ task :: l2 ->
    tasks_db s' = l1 ++ task' :: l2 ->
    Task.id task' = Task.id task ->
    Task.user_id task' = Task.user_id task ->
    Task.created_at task' = Task.created_at task ->
    current_task_id s' = current_task_id s ->
    tasks_step s s'
| tasks_deleted (l1 l2 : list Task.t) (task : Task.t) :
    tasks_db s = l1 ++ task :: l2 ->
    tasks_db s' = l1 ++ l2 ->
    current_task_id s' = current_task_id s ->
    tasks_step s s'.

(** Strictly descending task ids. *)
Definition id_desc (a b : Task.t) : Prop := Task.id a > Task.id b.

(** The test of the list comprehension of [get_tasks]. *)
Definition owned_by (owner : Z) (task : Task.t) : bool := Task.user_id task =? owner.

(** [r], served in [s], creates a task. *)
Definition creates (r : request) (s : db) : bool :=
  match r with
  | POST_tasks _ token _ =>
      match fst (get_current_user token s) with
      | Return _ => true
      | Raise _ => false
      end
  | _ => false
  end.

(** The number of tasks created while [reqs] is served from [s]. *)
Fixpoint creations (reqs : list request) (s : db) : nat :=
  match reqs with
  | [] => 0
  | r :: rest => ((if creates r s then 1 else 0) + creations rest (serve r s))%nat
  end.

(** No task has the id [task_id], and none will: the counter is past it. *)
Definition gone (task_id : Z) (s : db) : Prop :=
  task_id < current_task_id s /\
  Forall (fun task => Task.id task <> task_id) (tasks_db s).

(** No account but the one registered under [email] holds [token]. *)
Definition only_holder (token email : string) (s : db) : Prop :=
  forall e user_data,
    In (e, user_data) (users_db s) -> UserData.token user_data = Some token ->
    e = email.

(** Two values of an account that differ at most in the token. *)
Definition same_account (a b : UserData.t) : Prop :=
  UserData.id a = UserData.id b /\
  UserData.name a = UserData.name b /\
  UserData.password_hash a = UserData.password_hash b.

(** Every login of the run draws a token that no account holds at that
    moment: what [secrets.token_hex(32)] gives but for a collision. *)
Fixpoint fresh_draws (reqs : list request) (s : db) : Prop :=
  match reqs with
  | [] => True
  | r :: rest =>
      match drawn_token r with
      | Some token => unheld token s
      | None => True
      end /\
      fresh_draws rest (serve r s)
  end.

(** No token is held by two accounts. *)
Definition tokens_distinct (s : db) : Prop :=
  forall e1 u1 e2 u2 token,
    In (e1, u1) (users_db s) -> In (e2, u2) (users_db s) ->
    UserData.token u1 = Some token -> UserData.token u2 = Some token ->
    e1 = e2.

(** The token of a request on tasks. *)
Definition task_request_token (r : request) : option string :=
  match r with
  | GET_tasks token | POST_tasks _ token _ | PUT_task _ _ token _
  | DELETE_task _ token | GET_task _ token => Some token
  | _ => None
  end.

(** The ids [first], [first + 1], ... of [n] registrations in a row. *)
Fixpoint ids_from (first : Z) (n : nat) : list Z :=
  match n with
  | O => []
  | S m => first :: ids_from (first + 1) m
  end.

(** ** Lemmas on the dict operations and the loops *)

Ltac run_handler :=
  unfold get_tasks, create_task, update_task, delete_task, get_task, logout,
    health_check, register, login, verify_user, get_current_user,
    bind, gets, modify, ret, raise; simpl.

Lemma holds_token_true (user_data : UserData.t) (token : string) :
  holds_token user_data token = true <-> UserData.token user_data = Some token.
Proof.
  unfold holds_token. destruct (UserData.token user_data) as [t|].
  - rewrite String.eqb_eq. split; congruence.
  - split; discriminate.
Qed.

Lemma holds_token_false (user_data : UserData.t) (token : string) :
  holds_token user_data token = false <-> UserData.token user_data <> Some token.
Proof.
  rewrite <- holds_token_true. destruct (holds_token user_data token); split;
    congruence.
Qed.

Lemma first_holder_None (token : string) (items : list (string * UserData.t)) :
  first_holder token items = None <->
  (forall email user_data, In (email, user_data) items ->
     UserData.token user_data <> Some token).
Proof.
  induction items as [|[e ud] rest IH]; simpl.
  - split; [intros _ ? ? []|reflexivity].
  - destruct (holds_token ud token) eqn:Hh.
    + split; [discriminate|]. intros H. apply holds_token_true in Hh.
      exfalso. exact (H e ud (or_introl eq_refl) Hh).
    + rewrite IH. apply holds_token_false in Hh. split.
      * intros H e' ud' [Heq|Hin]; [inversion Heq; subst; exact Hh|eauto].
      * intros H e' ud' Hin. eauto.
Qed.

Lemma first_holder_Some (token : string) (items : list (string * UserData.t))
  (email : string) (user_data : UserData.t) :
  first_holder token items = Some (email, user_data) ->
  In (email, user_data) items /\ UserData.token user_data = Some token.
Proof.
  induction items as [|[e ud] rest IH]; simpl; [discriminate|].
  destruct (holds_token ud token) eqn:Hh.
  - intros H; inversion H; subst. apply holds_token_true in Hh. auto.
  - intros H. destruct (IH H). auto.
Qed.

Lemma get_current_user_eq (token : string) (s : db) :
  get_current_user token s =
  (match first_holder token (users_db s) with
   | Some (email, user_data) =>
       Return (User.mk email (UserData.name user_data) (UserData.id user_data))
   | None => Raise invalid_token
   end, s).
Proof.
  run_handler. destruct (first_holder token (users_db s)) as [[e ud]|]; reflexivity.
Qed.

Lemma get_current_user_state (token : string) (s : db) :
  snd (get_current_user token s) = s.
Proof. rewrite get_current_user_eq. reflexivity. Qed.

Lemma get_current_user_unheld (token : string) (s : db) :
  unheld token s -> get_current_user token s = (Raise invalid_token, s).
Proof.
  intros H. rewrite get_current_user_eq.
  apply first_holder_None in H. rewrite H. reflexivity.
Qed.

Lemma get_current_user_Return (token : string) (s : db) (user : User.t) :
  fst (get_current_user token s) = Return user ->
  exists user_data,
    In (User.email user, user_data) (users_db s) /\
    UserData.token user_data = Some token /\
    UserData.id user_data = User.id user /\
    UserData.name user_data = User.name user.
Proof.
  rewrite get_current_user_eq. simpl.
  destruct (first_holder token (users_db s)) as [[e ud]|] eqn:Hf; [|discriminate].
  intros H; inversion H; subst; simpl. apply first_holder_Some in Hf.
  exists ud. tauto.
Qed.

(** Every handler that starts by resolving the token: its behaviour on either
    outcome of [get_current_user]. *)
Lemma bind_get_current_user {A} (token : string) (k : User.t -> handler A) (s : db) :
  bind (get_current_user token) k s =
  match fst (get_current_user token s) with
  | Return user => k user s
  | Raise e => (Raise e, s)
  end.
Proof.
  unfold bind at 1. rewrite get_current_user_eq. simpl.
  destruct (first_holder token (users_db s)) as [[e ud]|]; reflexivity.
Qed.

(** *** The three loops over [tasks_db] agree on the task they stop at *)

Lemma get_scan_None (task_id owner : Z) (tasks : list Task.t) :
  get_scan task_id owner tasks = None <->
  Forall (fun task => is_task_of task_id owner task = false) tasks.
Proof.
  induction tasks as [|t rest IH]; simpl.
  - split; auto.
  - destruct (is_task_of task_id owner t) eqn:Ht.
    + split; [discriminate|]. intros H; inversion H; congruence.
    + rewrite IH. split; [auto|]. intros H; inversion H; assumption.
Qed.

Lemma get_scan_Some (task_id owner : Z) (tasks : list Task.t) (task : Task.t) :
  get_scan task_id owner tasks = Some task ->
  exists l1 l2, first_match (is_task_of task_id owner) tasks l1 task l2.
Proof.
  induction tasks as [|t rest IH]; simpl; [discriminate|].
  destruct (is_task_of task_id owner t) eqn:Ht.
  - intros H; inversion H; subst. exists [], rest. repeat split; auto.
  - intros H. destruct (IH H) as (l1 & l2 & -> & Hp & Hl).
    exists (t :: l1), l2. repeat split; auto.
Qed.

Lemma first_match_get_scan (task_id owner : Z) (tasks l1 l2 : list Task.t)
  (task : Task.t) :
  first_match (is_task_of task_id owner) tasks l1 task l2 ->
  get_scan task_id owner tasks = Some task.
Proof.
  intros (-> & Hp & Hl). induction Hl as [|x l1 Hx _ IH]; simpl.
  - rewrite Hp. reflexivity.
  - rewrite Hx. exact IH.
Qed.

Lemma update_scan_eq (task_id owner : Z) (task_data : TaskCreate.t) (now : datetime)
  (tasks l1 l2 : list Task.t) (task : Task.t) :
  first_match (is_task_of task_id owner) tasks l1 task l2 ->
  update_scan task_id owner task_data now tasks =
  Some (overwrite task_data now task, l1 ++ overwrite task_data now task :: l2).
Proof.
  intros (-> & Hp & Hl). induction Hl as [|x l1 Hx _ IH]; simpl.
  - rewrite Hp. reflexivity.
  - rewrite Hx, IH. reflexivity.
Qed.

Lemma update_scan_None (task_id owner : Z) (task_data : TaskCreate.t) (now : datetime)
  (tasks : list Task.t) :
  get_scan task_id owner tasks = None ->
  update_scan task_id owner task_data now tasks = None.
Proof.
  induction tasks as [|t rest IH]; simpl; [reflexivity|].
  destruct (is_task_of task_id owner t); [discriminate|].
  intros H. rewrite (IH H). reflexivity.
Qed.

Lemma delete_scan_eq (task_id owner : Z) (i : nat) (tasks l1 l2 : list Task.t)
  (task : Task.t) :
  first_match (is_task_of task_id owner) tasks l1 task l2 ->
  delete_scan task_id owner i tasks = Some (i + List.length l1)%nat.
Proof.
  intros (-> & Hp & Hl). revert i. induction Hl as [|x l1 Hx _ IH]; simpl; intros i.
  - rewrite Hp. f_equal. lia.
  - rewrite Hx, IH. f_equal. lia.
Qed.

Lemma delete_scan_None (task_id owner : Z) (i : nat) (tasks : list Task.t) :
  get_scan task_id owner tasks = None ->
  delete_scan task_id owner i tasks = None.
Proof.
  revert i. induction tasks as [|t rest IH]; simpl; intros i; [reflexivity|].
  destruct (is_task_of task_id owner t); [discriminate|]. apply IH.
Qed.

Lemma pop_middle {A} (l1 l2 : list A) (x : A) :
  pop (List.length l1) (l1 ++ x :: l2) = Some (x, l1 ++ l2).
Proof.
  induction l1 as [|y l1 IH]; simpl; [reflexivity|]. rewrite IH. reflexivity.
Qed.

(** *** The task handlers after the token has resolved *)

Lemma get_task_eq (task_id : Z) (token : string) (s : db) (user : User.t) :
  fst (get_current_user token s) = Return user ->
  get_task task_id token s =
  (match get_scan task_id (User.id user) (tasks_db s) with
   | Some task => Return task
   | None => Raise not_found
   end, s).
Proof.
  intros Hu. unfold get_task. rewrite bind_get_current_user, Hu.
  unfold bind, gets, ret, raise; simpl.
  destruct (get_scan task_id (User.id user) (tasks_db s)); reflexivity.
Qed.

Lemma update_task_found (task_id : Z) (task_data : TaskCreate.t) (token : string)
  (now : datetime) (s : db) (user : User.t) (l1 l2 : list Task.t) (task : Task.t) :
  fst (get_current_user token s) = Return user ->
  first_match (is_task_of task_id (User.id user)) (tasks_db s) l1 task l2 ->
  update_task task_id task_data token now s =
  (Return (overwrite task_data now task),
   set_tasks_db (l1 ++ overwrite task_data now task :: l2) s).
Proof.
  intros Hu Hm. unfold update_task. rewrite bind_get_current_user, Hu.
  unfold bind, gets, ret, raise, modify; simpl.
  rewrite (update_scan_eq _ _ task_data now _ _ _ _ Hm). reflexivity.
Qed.

Lemma update_task_missing (task_id : Z) (task_data : TaskCreate.t) (token : string)
  (now : datetime) (s : db) (user : User.t) :
  fst (get_current_user token s) = Return user ->
  get_scan task_id (User.id user) (tasks_db s) = None ->
  update_task task_id task_data token now s = (Raise not_found, s).
Proof.
  intros Hu Hm. unfold update_task. rewrite bind_get_current_user, Hu.
  unfold bind, gets, ret, raise, modify; simpl.
  rewrite (update_scan_None _ _ task_data now _ Hm). reflexivity.
Qed.

Lemma delete_task_found (task_id : Z) (token : string) (s : db) (user : User.t)
  (l1 l2 : list Task.t) (task : Task.t) :
  fst (get_current_user token s) = Return user ->
  first_match (is_task_of task_id (User.id user)) (tasks_db s) l1 task l2 ->
  delete_task task_id token s =
  (Return (DeleteResponse.mk "Tarea eliminada" task), set_tasks_db (l1 ++ l2) s).
Proof.
  intros Hu Hm. unfold delete_task. rewrite bind_get_current_user, Hu.
  unfold bind, gets, ret, raise, modify; simpl.
  rewrite (delete_scan_eq _ _ 0%nat _ _ _ _ Hm). simpl.
  destruct Hm as (-> & _ & _). rewrite pop_middle. reflexivity.
Qed.

Lemma delete_task_missing (task_id : Z) (token : string) (s : db) (user : User.t) :
  fst (get_current_user token s) = Return user ->
  get_scan task_id (User.id user) (tasks_db s) = None ->
  delete_task task_id token s = (Raise not_found, s).
Proof.
  intros Hu Hm. unfold delete_task. rewrite bind_get_current_user, Hu.
  unfold bind, gets, ret, raise, modify; simpl.
  rewrite (delete_scan_None _ _ 0%nat _ Hm). reflexivity.
Qed.

Lemma create_task_eq (task_data : TaskCreate.t) (token : string) (now : datetime)
  (s : db) (user : User.t) :
  fst (get_current_user token s) = Return user ->
  let new_task :=
    Task.mk (TaskCreate.title task_data) (TaskCreate.description task_data)
      (TaskCreate.priority task_data) (TaskCreate.status task_data)
      (current_task_id s) (User.id user) (strftime_minute now) (strftime_minute now) in
  create_task task_data token now s =
  (Return new_task,
   {| users_db := users_db s; tasks_db := tasks_db s ++ [new_task];
      current_user_id := current_user_id s;
      current_task_id := current_task_id s + 1 |}).
Proof.
  intros Hu. unfold create_task. rewrite bind_get_current_user, Hu. reflexivity.
Qed.

Lemma get_tasks_eq (token : string) (s : db) (user : User.t) :
  fst (get_current_user token s) = Return user ->
  get_tasks token s =
  (Return (sorted_by_id_reverse
             (filter (fun task => Task.user_id task =? User.id user) (tasks_db s))), s).
Proof.
  intros Hu. unfold get_tasks. rewrite bind_get_current_user, Hu. reflexivity.
Qed.

(** Whatever the token, a task handler that raises leaves the database as it
    found it, and the three by-id handlers find a task or raise together. *)
Lemma scan_cases (task_id owner : Z) (tasks : list Task.t) :
  get_scan task_id owner tasks = None \/
  exists l1 task l2, first_match (is_task_of task_id owner) tasks l1 task l2.
Proof.
  destruct (get_scan task_id owner tasks) as [t|] eqn:H; [right|left; reflexivity].
  destruct (get_scan_Some _ _ _ _ H) as (l1 & l2 & Hm). eauto.
Qed.

(** *** The dict *)

Lemma dict_get_In {V} (k : string) (d : list (string * V)) (v : V) :
  dict_get k d = Some v -> In (k, v) d.
Proof.
  induction d as [|[k' v'] rest IH]; simpl; [discriminate|].
  destruct (String.eqb_spec k' k) as [->|_].
  - intros H; inversion H; auto.
  - auto.
Qed.

Lemma dict_get_None {V} (k : string) (d : list (string * V)) :
  dict_get k d = None <-> ~ In k (map fst d).
Proof.
  induction d as [|[k' v'] rest IH]; simpl; [tauto|].
  destruct (String.eqb_spec k' k) as [->|Hne].
  - split; [discriminate|tauto].
  - rewrite IH. tauto.
Qed.

Lemma In_dict_get {V} (k : string) (d : list (string * V)) (v : V) :
  NoDup (map fst d) -> In (k, v) d -> dict_get k d = Some v.
Proof.
  induction d as [|[k' v'] rest IH]; simpl; [tauto|].
  intros Hnd [Heq|Hin]; inversion Hnd as [|? ? Hnotin Hnd']; subst.
  - inversion Heq; subst. rewrite String.eqb_refl. reflexivity.
  - destruct (String.eqb_spec k' k) as [->|_]; [|auto].
    exfalso. apply Hnotin. change k with (fst (k, v)). apply in_map. exact Hin.
Qed.

Lemma dict_set_absent {V} (k : string) (v : V) (d : list (string * V)) :
  dict_get k d = None -> dict_set k v d = d ++ [(k, v)].
Proof.
  induction d as [|[k' v'] rest IH]; simpl; [reflexivity|].
  destruct (String.eqb k' k); [discriminate|]. intros H. rewrite (IH H). reflexivity.
Qed.

Lemma dict_update_split {V} (k : string) (f : V -> V) (d : list (string * V)) (v : V) :
  dict_get k d = Some v ->
  exists l1 l2,
    d = l1 ++ (k, v) :: l2 /\ dict_update k f d = l1 ++ (k, f v) :: l2 /\
    ~ In k (map fst l1).
Proof.
  induction d as [|[k' v'] rest IH]; simpl; [discriminate|].
  destruct (String.eqb_spec k' k) as [->|Hne].
  - intros H; inversion H; subst. exists [], rest. simpl. tauto.
  - intros H. destruct (IH H) as (l1 & l2 & -> & -> & Hl1).
    exists ((k', v') :: l1), l2. simpl. intuition congruence.
Qed.

Lemma logout_scan_None (token : string) (items : list (string * UserData.t)) :
  first_holder token items = None -> logout_scan token items = None.
Proof.
  induction items as [|[e ud] rest IH]; simpl; [reflexivity|].
  destruct (holds_token ud token); [discriminate|]. intros H. rewrite (IH H).
  reflexivity.
Qed.

Lemma logout_scan_Some (token : string) (items : list (string * UserData.t))
  (email : string) (user_data : UserData.t) :
  first_holder token items = Some (email, user_data) ->
  exists l1 l2,
    items = l1 ++ (email, user_data) :: l2 /\
    logout_scan token items = Some (l1 ++ (email, with_token None user_data) :: l2) /\
    Forall (fun item => holds_token (snd item) token = false) l1.
Proof.
  induction items as [|[e ud] rest IH]; simpl; [discriminate|].
  destruct (holds_token ud token) eqn:Hh.
  - intros H; inversion H; subst. exists [], rest. simpl. auto.
  - intros H. destruct (IH H) as (l1 & l2 & -> & -> & Hl1).
    exists ((e, ud) :: l1), l2. simpl. auto.
Qed.

(** *** The account handlers in closed form *)

Lemma register_eq (user_data : UserCreate.t) (s : db) :
  register user_data s =
  match dict_get (UserCreate.email user_data) (users_db s) with
  | Some _ => (Raise duplicate_account, s)
  | None =>
      (Return (RegisterResponse.mk "Usuario registrado exitosamente" (current_user_id s)),
       {| users_db :=
            users_db s ++
            [(UserCreate.email user_data,
              UserData.mk (current_user_id s) (UserCreate.name user_data)
                (hash_password (UserCreate.password user_data)) None)];
          tasks_db := tasks_db s;
          current_user_id := current_user_id s + 1;
          current_task_id := current_task_id s |})
  end.
Proof.
  run_handler. unfold dict_contains.
  destruct (dict_get (UserCreate.email user_data) (users_db s)) eqn:Hg; [reflexivity|].
  unfold set_current_user_id, set_users_db; simpl.
  rewrite (dict_set_absent _ _ _ Hg), Z.add_simpl_r. reflexivity.
Qed.

Lemma login_eq (login_data : LoginRequest.t) (token : string) (s : db) :
  login login_data token s =
  match dict_get (LoginRequest.email login_data) (users_db s) with
  | Some ud =>
      if String.eqb (UserData.password_hash ud)
           (hash_password (LoginRequest.password login_data))
      then
        (Return (LoginResponse.mk "Login exitoso" token
                   (User.mk (LoginRequest.email login_data) (UserData.name ud)
                      (UserData.id ud))),
         set_users_db
           (dict_update (LoginRequest.email login_data) (with_token (Some token))
              (users_db s)) s)
      else (Raise invalid_credentials, s)
  | None => (Raise invalid_credentials, s)
  end.
Proof.
  run_handler. unfold dict_contains.
  destruct (dict_get (LoginRequest.email login_data) (users_db s)) as [ud|] eqn:Hg;
    simpl; [|reflexivity].
  destruct (String.eqb (UserData.password_hash ud) _); simpl; [|reflexivity].
  rewrite Hg. reflexivity.
Qed.

Lemma logout_eq (token : string) (s : db) :
  logout token s =
  match logout_scan token (users_db s) with
  | Some items' => (Return "Logout exitoso", set_users_db items' s)
  | None => (Raise invalid_token, s)
  end.
Proof.
  run_handler. destruct (logout_scan token (users_db s)); reflexivity.
Qed.

(** *** Case analysis of the task handlers *)

Lemma unauthenticated (token : string) (s : db) (e : HTTPException) :
  fst (get_current_user token s) = Raise e ->
  get_tasks token s = (Raise e, s) /\
  (forall task_data now, create_task task_data token now s = (Raise e, s)) /\
  (forall task_id, get_task task_id token s = (Raise e, s)) /\
  (forall task_id task_data now,
     update_task task_id task_data token now s = (Raise e, s)) /\
  (forall task_id, delete_task task_id token s = (Raise e, s)).
Proof.
  intros Hu. repeat split; intros;
    unfold get_tasks, create_task, get_task, update_task, delete_task;
    rewrite bind_get_current_user, Hu; reflexivity.
Qed.

Lemma update_task_cases (task_id : Z) (task_data : TaskCreate.t) (token : string)
  (now : datetime) (s : db) :
  (exists e, update_task task_id task_data token now s = (Raise e, s)) \/
  (exists user l1 task l2,
     fst (get_current_user token s) = Return user /\
     first_match (is_task_of task_id (User.id user)) (tasks_db s) l1 task l2 /\
     update_task task_id task_data token now s =
     (Return (overwrite task_data now task),
      set_tasks_db (l1 ++ overwrite task_data now task :: l2) s)).
Proof.
  destruct (fst (get_current_user token s)) as [user|e] eqn:Hu.
  - destruct (scan_cases task_id (User.id user) (tasks_db s))
      as [Hn|(l1 & task & l2 & Hm)].
    + left. exists not_found. apply (update_task_missing _ _ _ _ _ _ Hu Hn).
    + right. exists user, l1, task, l2. repeat split; try apply Hm; auto.
      apply (update_task_found _ _ _ _ _ _ _ _ _ Hu Hm).
  - left. exists e. apply (unauthenticated _ _ _ Hu).
Qed.

Lemma delete_task_cases (task_id : Z) (token : string) (s : db) :
  (exists e, delete_task task_id token s = (Raise e, s)) \/
  (exists user l1 task l2,
     fst (get_current_user token s) = Return user /\
     first_match (is_task_of task_id (User.id user)) (tasks_db s) l1 task l2 /\
     delete_task task_id token s =
     (Return (DeleteResponse.mk "Tarea eliminada" task), set_tasks_db (l1 ++ l2) s)).
Proof.
  destruct (fst (get_current_user token s)) as [user|e] eqn:Hu.
  - destruct (scan_cases task_id (User.id user) (tasks_db s))
      as [Hn|(l1 & task & l2 & Hm)].
    + left. exists not_found. apply (delete_task_missing _ _ _ _ Hu Hn).
    + right. exists user, l1, task, l2. repeat split; try apply Hm; auto.
      apply (delete_task_found _ _ _ _ _ _ _ Hu Hm).
  - left. exists e. apply (unauthenticated _ _ _ Hu).
Qed.

Lemma create_task_cases (task_data : TaskCreate.t) (token : string) (now : datetime)
  (s : db) :
  (exists e, create_task task_data token now s = (Raise e, s)) \/
  (exists user,
     fst (get_current_user token s) = Return user /\
     create_task task_data token now s =
     let new_task :=
       Task.mk (TaskCreate.title task_data) (TaskCreate.description task_data)
         (TaskCreate.priority task_data) (TaskCreate.status task_data)
         (current_task_id s) (User.id user) (strftime_minute now)
         (strftime_minute now) in
     (Return new_task,
      {| users_db := users_db s; tasks_db := tasks_db s ++ [new_task];
         current_user_id := current_user_id s;
         current_task_id := current_task_id s + 1 |})).
Proof.
  destruct (fst (get_current_user token s)) as [user|e] eqn:Hu.
  - right. exists user. split; [reflexivity|]. apply (create_task_eq _ _ _ _ _ Hu).
  - left. exists e. apply (unauthenticated _ _ _ Hu).
Qed.

Lemma get_task_state (task_id : Z) (token : string) (s : db) :
  snd (get_task task_id token s) = s.
Proof.
  destruct (fst (get_current_user token s)) as [user|e] eqn:Hu.
  - rewrite (get_task_eq _ _ _ _ Hu). reflexivity.
  - destruct (unauthenticated _ _ _ Hu) as (_ & _ & H & _). rewrite H. reflexivity.
Qed.

Lemma get_tasks_state (token : string) (s : db) : snd (get_tasks token s) = s.
Proof.
  destruct (fst (get_current_user token s)) as [user|e] eqn:Hu.
  - rewrite (get_tasks_eq _ _ _ Hu). reflexivity.
  - destruct (unauthenticated _ _ _ Hu) as (H & _). rewrite H. reflexivity.
Qed.

(** *** Every request is one step on the accounts and one on the tasks *)

Lemma serve_users_step (r : request) (s : db) : users_step r s (serve r s).
Proof.
  destruct r as [ud|ld tok|tok|tok|body tok now|tid body tok now|tid tok|tid tok|now];
    simpl.
  - rewrite register_eq.
    destruct (dict_get (UserCreate.email ud) (users_db s)) eqn:Hg.
    + apply users_same; reflexivity.
    + eapply users_registered; simpl; eauto.
  - rewrite login_eq.
    destruct (dict_get (LoginRequest.email ld) (users_db s)) as [d|] eqn:Hg;
      [|apply users_same; reflexivity].
    destruct (String.eqb (UserData.password_hash d) _);
      [|apply users_same; reflexivity].
    destruct (dict_update_split _ (with_token (Some tok)) _ _ Hg)
      as (l1 & l2 & H1 & H2 & _).
    eapply users_token; simpl; eauto.
  - rewrite logout_eq.
    destruct (first_holder tok (users_db s)) as [[e d]|] eqn:Hf.
    + destruct (logout_scan_Some _ _ _ _ Hf) as (l1 & l2 & H1 & H2 & _).
      rewrite H2. eapply users_token; simpl; eauto.
    + rewrite (logout_scan_None _ _ Hf). apply users_same; reflexivity.
  - rewrite get_tasks_state. apply users_same; reflexivity.
  - destruct (create_task_cases (TaskCreate_of_body body) tok now s)
      as [[e H]|(u & _ & H)]; rewrite H; apply users_same; reflexivity.
  - destruct (update_task_cases tid (TaskCreate_of_body body) tok now s)
      as [[e H]|(u & l1 & t & l2 & _ & _ & H)]; rewrite H; apply users_same;
      reflexivity.
  - destruct (delete_task_cases tid tok s)
      as [[e H]|(u & l1 & t & l2 & _ & _ & H)]; rewrite H; apply users_same;
      reflexivity.
  - rewrite get_task_state. apply users_same; reflexivity.
  - apply users_same; reflexivity.
Qed.

Lemma serve_tasks_step (r : request) (s : db) : tasks_step s (serve r s).
Proof.
  destruct r as [ud|ld tok|tok|tok|body tok now|tid body tok now|tid tok|tid tok|now];
    simpl.
  - rewrite register_eq.
    destruct (dict_get (UserCreate.email ud) (users_db s));
      apply tasks_same; reflexivity.
  - rewrite login_eq.
    destruct (dict_get (LoginRequest.email ld) (users_db s)) as [d|];
      [|apply tasks_same; reflexivity].
    destruct (String.eqb (UserData.password_hash d) _);
      apply tasks_same; reflexivity.
  - rewrite logout_eq.
    destruct (logout_scan tok (users_db s)); apply tasks_same; reflexivity.
  - rewrite get_tasks_state. apply tasks_same; reflexivity.
  - destruct (create_task_cases (TaskCreate_of_body body) tok now s)
      as [[e H]|(u & _ & H)]; rewrite H.
    + apply tasks_same; reflexivity.
    + eapply tasks_created; simpl; reflexivity.
  - destruct (update_task_cases tid (TaskCreate_of_body body) tok now s)
      as [[e H]|(u & l1 & t & l2 & _ & (Ht & _) & H)]; rewrite H.
    + apply tasks_same; reflexivity.
    + eapply tasks_updated; simpl; eauto.
  - destruct (delete_task_cases tid tok s)
      as [[e H]|(u & l1 & t & l2 & _ & (Ht & _) & H)]; rewrite H.
    + apply tasks_same; reflexivity.
    + eapply tasks_deleted; simpl; eauto.
  - rewrite get_task_state. apply tasks_same; reflexivity.
  - apply tasks_same; reflexivity.
Qed.

(** *** Consistency is an invariant *)

Lemma StronglySorted_snoc {A} (R : A -> A -> Prop) (l : list A) (a : A) :
  StronglySorted R l -> Forall (fun x => R x a) l -> StronglySorted R (l ++ [a]).
Proof.
  induction 1 as [|x l Hl IH Hx]; simpl; intros Ha.
  - constructor; constructor.
  - inversion Ha; subst. constructor; [auto|].
    apply Forall_app. split; [assumption|]. constructor; [assumption|constructor].
Qed.

Lemma StronglySorted_remove {A} (R : A -> A -> Prop) (l1 l2 : list A) (x : A) :
  StronglySorted R (l1 ++ x :: l2) -> StronglySorted R (l1 ++ l2).
Proof.
  induction l1 as [|y l1 IH]; simpl; intros H; inversion H as [|? ? Hs Hf]; subst.
  - assumption.
  - constructor; [auto|]. apply Forall_app in Hf. destruct Hf as [H1 H2].
    inversion H2; subst. apply Forall_app. auto.
Qed.

Lemma StronglySorted_lt_NoDup (l : list Z) : StronglySorted Z.lt l -> NoDup l.
Proof.
  induction 1 as [|x l Hl IH Hx]; constructor; [|assumption].
  intros Hin. rewrite Forall_forall in Hx. specialize (Hx _ Hin). lia.
Qed.

Lemma consistent_init : consistent init_db.
Proof. split; simpl; try constructor; lia. Qed.

Lemma step_consistent (r : request) (s s' : db) :
  users_step r s s' -> tasks_step s s' -> consistent s -> consistent s'.
Proof.
  intros Hu Ht [K1 K2 K3 K4 K5 [K6 K7]].
  assert (NoDup (map fst (users_db s')) /\
          StronglySorted Z.lt (map account_id (users_db s')) /\
          Forall (fun n => 1 <= n < current_user_id s') (map account_id (users_db s')) /\
          1 <= current_user_id s')
    as (U1 & U2 & U3 & U4).
  { destruct Hu as [E1 E2|email ud Hg E1 Hid _ E2|l1 l2 email ud tok E0 E1 _ E2].
    - rewrite E1, E2. auto.
    - rewrite E1, E2, !map_app. simpl. unfold account_id at 2 4; simpl.
      rewrite Hid. repeat split; try lia.
      + apply (Permutation_NoDup (Permutation_cons_append _ _)).
        constructor; [apply dict_get_None; exact Hg|exact K1].
      + apply StronglySorted_snoc; [exact K2|].
        eapply Forall_impl; [|exact K3]. simpl. intros; lia.
      + apply Forall_app. split.
        * eapply Forall_impl; [|exact K3]. simpl. intros; lia.
        * constructor; [lia|constructor].
    - rewrite E0 in K1, K2, K3. rewrite E1, E2.
      rewrite !map_app in *. simpl in *. auto. }
  assert (StronglySorted Z.lt (map Task.id (tasks_db s')) /\
          Forall (fun n => 1 <= n < current_task_id s') (map Task.id (tasks_db s')) /\
          1 <= current_task_id s')
    as (T1 & T2 & T3).
  { destruct Ht as [E1 E2|task E1 Hid E2|l1 l2 task task' E0 E1 Hid _ _ E2
                   |l1 l2 task E0 E1 E2].
    - rewrite E1, E2. auto.
    - rewrite E1, E2, !map_app. simpl. rewrite Hid. repeat split; try lia.
      + apply StronglySorted_snoc; [exact K4|].
        eapply Forall_impl; [|exact K5]. simpl. intros; lia.
      + apply Forall_app. split.
        * eapply Forall_impl; [|exact K5]. simpl. intros; lia.
        * constructor; [lia|constructor].
    - rewrite E0 in K4, K5. rewrite E1, E2.
      rewrite !map_app in *. simpl in *. rewrite Hid. auto.
    - rewrite E0 in K4, K5. rewrite E1, E2. rewrite !map_app in *. simpl in *.
      repeat split; try lia.
      + eapply StronglySorted_remove; exact K4.
      + apply Forall_app in K5. destruct K5 as [F1 F2]. inversion F2; subst.
        apply Forall_app. auto. }
  split; auto.
Qed.

Lemma serve_consistent (r : request) (s : db) : consistent s -> consistent (serve r s).
Proof.
  apply (step_consistent r); [apply serve_users_step|apply serve_tasks_step].
Qed.

Lemma run_app (reqs1 reqs2 : list request) (s : db) :
  run (reqs1 ++ reqs2) s = run reqs2 (run reqs1 s).
Proof. unfold run. apply fold_left_app. Qed.

Lemma run_consistent (reqs : list request) (s : db) :
  consistent s -> consistent (run reqs s).
Proof.
  revert s. induction reqs as [|r reqs IH]; simpl; intros s H; [exact H|].
  apply IH, serve_consistent, H.
Qed.

Lemma reachable_consistent (s : db) : reachable s -> consistent s.
Proof. intros [reqs ->]. apply run_consistent, consistent_init. Qed.

Lemma reachable_run (reqs : list request) (s : db) :
  reachable s -> reachable (run reqs s).
Proof. intros [reqs0 ->]. exists (reqs0 ++ reqs). symmetry. apply run_app. Qed.

(** *** Ids identify *)

Lemma NoDup_map_In_eq {A B} (f : A -> B) (l : list A) (x y : A) :
  NoDup (map f l) -> In x l -> In y l -> f x = f y -> x = y.
Proof.
  induction l as [|a l IH]; simpl; [tauto|].
  intros Hnd Hx Hy Hf. inversion Hnd as [|? ? Hnotin Hnd']; subst.
  destruct Hx as [->|Hx], Hy as [->|Hy]; auto.
  - exfalso. apply Hnotin. rewrite Hf. apply in_map, Hy.
  - exfalso. apply Hnotin. rewrite <- Hf. apply in_map, Hx.
Qed.

Lemma consistent_task_ids_unique (s : db) (t1 t2 : Task.t) :
  consistent s -> In t1 (tasks_db s) -> In t2 (tasks_db s) ->
  Task.id t1 = Task.id t2 -> t1 = t2.
Proof.
  intros K. apply NoDup_map_In_eq, StronglySorted_lt_NoDup, (task_ids_increase s K).
Qed.

Lemma consistent_account_ids_unique (s : db) (i1 i2 : string * UserData.t) :
  consistent s -> In i1 (users_db s) -> In i2 (users_db s) ->
  account_id i1 = account_id i2 -> i1 = i2.
Proof.
  intros K. apply NoDup_map_In_eq, StronglySorted_lt_NoDup, (account_ids_increase s K).
Qed.

Lemma is_task_of_true (task_id owner : Z) (task : Task.t) :
  is_task_of task_id owner task = true <->
  Task.id task = task_id /\ Task.user_id task = owner.
Proof. unfold is_task_of. rewrite andb_true_iff, !Z.eqb_eq. tauto. Qed.

Lemma get_scan_absent (task_id owner : Z) (tasks : list Task.t) :
  (forall task, In task tasks -> Task.id task = task_id -> Task.user_id task <> owner) ->
  get_scan task_id owner tasks = None.
Proof.
  intros H. apply get_scan_None, Forall_forall. intros t Hin.
  destruct (is_task_of task_id owner t) eqn:E; [|reflexivity].
  apply is_task_of_true in E. destruct E as [E1 E2]. exfalso. exact (H t Hin E1 E2).
Qed.

Lemma not_found_everywhere (task_id : Z) (token : string) (s : db) (user : User.t) :
  fst (get_current_user token s) = Return user ->
  get_scan task_id (User.id user) (tasks_db s) = None ->
  get_task task_id token s = (Raise not_found, s) /\
  (forall task_data now,
     update_task task_id task_data token now s = (Raise not_found, s)) /\
  delete_task task_id token s = (Raise not_found, s).
Proof.
  intros Hu Hn. repeat split; intros.
  - rewrite (get_task_eq _ _ _ _ Hu), Hn. reflexivity.
  - apply (update_task_missing _ _ _ _ _ _ Hu Hn).
  - apply (delete_task_missing _ _ _ _ Hu Hn).
Qed.

(** ** The properties *)

(** C4. A token that no account holds makes every task handler (list,
    create, get, update, delete) raise the 401 "invalid token" exception and
    leaves the whole database -- accounts, task store and both id counters --
    exactly as it was: the handlers stop at the resolution of the token. *)
Theorem unheld_token_short_circuits (token : string) (s : db) :
  unheld token s ->
  status_code invalid_token = 401 /\
  get_tasks token s = (Raise invalid_token, s) /\
  (forall task_data now, create_task task_data token now s = (Raise invalid_token, s)) /\
  (forall task_id, get_task task_id token s = (Raise invalid_token, s)) /\
  (forall task_id task_data now,
     update_task task_id task_data token now s = (Raise invalid_token, s)) /\
  (forall task_id, delete_task task_id token s = (Raise invalid_token, s)).
Proof.
  intros H. split; [reflexivity|]. apply unauthenticated.
  rewrite (get_current_user_unheld _ _ H). reflexivity.
Qed.

(** C1. In a reachable state, let a task of the store be owned by account A
    (registered under [email_A]) and let [token] resolve to a different
    account B. Then get, update and delete on that task's id with B's token
    raise the 404 "not found" exception and leave the database, hence the
    task and the store, unchanged. *)
Theorem foreign_task_is_not_found (s : db) (task : Task.t) (email_A : string)
  (account_A : UserData.t) (token : string) (user_B : User.t) :
  reachable s ->
  In task (tasks_db s) ->
  In (email_A, account_A) (users_db s) ->
  Task.user_id task = UserData.id account_A ->
  fst (get_current_user token s) = Return user_B ->
  User.email user_B <> email_A ->
  status_code not_found = 404 /\
  get_task (Task.id task) token s = (Raise not_found, s) /\
  (forall task_data now,
     update_task (Task.id task) task_data token now s = (Raise not_found, s)) /\
  delete_task (Task.id task) token s = (Raise not_found, s).
Proof.
  intros Hr Htask HA Hown Hu Hne. split; [reflexivity|].
  apply reachable_consistent in Hr.
  apply (not_found_everywhere _ _ _ _ Hu), get_scan_absent.
  intros t Hin Hid Huid.
  assert (t = task) by (apply (consistent_task_ids_unique s); assumption).
  subst t.
  destruct (get_current_user_Return _ _ _ Hu) as (account_B & HB & _ & HidB & _).
  assert ((User.email user_B, account_B) = (email_A, account_A)) as E.
  { apply (consistent_account_ids_unique s); try assumption.
    unfold account_id; simpl. congruence. }
  inversion E. contradiction.
Qed.


(** *** [sorted(..., reverse=True)] *)

Lemma insert_desc_perm (x : Task.t) (l : list Task.t) :
  Permutation (insert_desc x l) (x :: l).
Proof.
  induction l as [|y l IH]; simpl; [reflexivity|].
  destruct (Task.id x <? Task.id y); [|reflexivity].
  rewrite IH. apply perm_swap.
Qed.

Lemma sorted_by_id_reverse_perm (l : list Task.t) :
  Permutation (sorted_by_id_reverse l) l.
Proof.
  induction l as [|x l IH]; simpl; [reflexivity|].
  rewrite insert_desc_perm. constructor. exact IH.
Qed.

Lemma insert_desc_sorted (x : Task.t) (l : list Task.t) :
  StronglySorted id_desc l -> ~ In (Task.id x) (map Task.id l) ->
  StronglySorted id_desc (insert_desc x l).
Proof.
  induction 1 as [|y l Hl IH Hy]; simpl; intros Hx.
  - constructor; constructor.
  - destruct (Z.ltb_spec (Task.id x) (Task.id y)) as [Hlt|Hge].
    + constructor; [apply IH; tauto|].
      rewrite (Forall_forall (id_desc y)). intros z Hz.
      apply (Permutation_in _ (insert_desc_perm x l)) in Hz.
      destruct Hz as [<-|Hz]; [unfold id_desc; lia|].
      rewrite Forall_forall in Hy. auto.
    + assert (id_desc x y) as Hxy by (unfold id_desc; lia).
      constructor; [constructor; assumption|].
      constructor; [exact Hxy|].
      eapply Forall_impl; [|exact Hy]. unfold id_desc in *. intros; lia.
Qed.

Lemma sorted_by_id_reverse_sorted (l : list Task.t) :
  NoDup (map Task.id l) -> StronglySorted id_desc (sorted_by_id_reverse l).
Proof.
  induction l as [|x l IH]; simpl; intros Hnd; [constructor|].
  inversion Hnd as [|? ? Hnotin Hnd']; subst.
  apply insert_desc_sorted; [auto|].
  intros Hin. apply Hnotin. apply in_map_iff in Hin.
  destruct Hin as (z & Hz & Hin). apply in_map_iff. exists z. split; [exact Hz|].
  apply (Permutation_in _ (sorted_by_id_reverse_perm l)). exact Hin.
Qed.

Lemma owned_ids_distinct (owner : Z) (tasks : list Task.t) :
  NoDup (map Task.id tasks) ->
  NoDup (map Task.id (filter (owned_by owner) tasks)).
Proof.
  intros Hnd. induction tasks as [|x tasks IH]; simpl; [constructor|].
  inversion Hnd as [|? ? Hnotin Hnd']; subst.
  destruct (owned_by owner x); simpl; [|auto]. constructor; [|auto].
  intros Hin. apply Hnotin. apply in_map_iff in Hin.
  destruct Hin as (z & Hz & Hin). apply filter_In in Hin.
  apply in_map_iff. exists z. tauto.
Qed.

(** C3. In a reachable state, for a token that resolves to [user], the list
    handler returns exactly the tasks of the store whose owner id is the
    caller's account id -- a permutation of them, so each once -- in strictly
    descending order of task id, and leaves the database unchanged. The state
    is any the server can reach, so any interleaving of the creations of
    several users is covered. *)
Theorem get_tasks_owned_descending (token : string) (s : db) (user : User.t) :
  reachable s ->
  fst (get_current_user token s) = Return user ->
  exists tasks,
    get_tasks token s = (Return tasks, s) /\
    Permutation tasks (filter (owned_by (User.id user)) (tasks_db s)) /\
    (forall task,
       In task tasks <->
       In task (tasks_db s) /\ Task.user_id task = User.id user) /\
    StronglySorted id_desc tasks.
Proof.
  intros Hr Hu. apply reachable_consistent in Hr.
  exists (sorted_by_id_reverse (filter (owned_by (User.id user)) (tasks_db s))).
  split; [exact (get_tasks_eq _ _ _ Hu)|].
  split; [apply sorted_by_id_reverse_perm|]. split.
  - intros task. split.
    + intros Hin. apply (Permutation_in _ (sorted_by_id_reverse_perm _)) in Hin.
      apply filter_In in Hin. unfold owned_by in Hin. rewrite Z.eqb_eq in Hin.
      exact Hin.
    + intros [Hin Ho].
      apply (Permutation_in _ (Permutation_sym (sorted_by_id_reverse_perm _))).
      apply filter_In. unfold owned_by. rewrite Z.eqb_eq. auto.
  - apply sorted_by_id_reverse_sorted, owned_ids_distinct, StronglySorted_lt_NoDup.
    exact (task_ids_increase s Hr).
Qed.


(** *** Creation and update *)

Lemma get_current_user_users (token : string) (s s' : db) :
  users_db s' = users_db s ->
  fst (get_current_user token s') = fst (get_current_user token s).
Proof. intros H. rewrite !get_current_user_eq, H. reflexivity. Qed.

Lemma get_task_Return (task_id : Z) (token : string) (s : db) (task : Task.t) :
  fst (get_task task_id token s) = Return task ->
  exists user,
    fst (get_current_user token s) = Return user /\
    get_scan task_id (User.id user) (tasks_db s) = Some task.
Proof.
  destruct (fst (get_current_user token s)) as [user|e] eqn:Hu.
  - rewrite (get_task_eq _ _ _ _ Hu). simpl.
    destruct (get_scan task_id (User.id user) (tasks_db s)) eqn:Hs; [|discriminate].
    intros H; inversion H; subst. exists user. split; [reflexivity|exact Hs].
  - destruct (unauthenticated _ _ _ Hu) as (_ & _ & H & _). rewrite H. discriminate.
Qed.

Lemma first_match_overwrite (task_id owner : Z) (task_data : TaskCreate.t)
  (now : datetime) (tasks l1 l2 : list Task.t) (task : Task.t) :
  first_match (is_task_of task_id owner) tasks l1 task l2 ->
  first_match (is_task_of task_id owner) (l1 ++ overwrite task_data now task :: l2)
    l1 (overwrite task_data now task) l2.
Proof. intros (_ & Hp & Hl). repeat split; assumption. Qed.

(** C5, as the code has it. A creation request whose body omits the priority
    and the status, sent with a token that resolves, creates a task of
    priority "media" and status "pendiente": the defaults [TaskBase]
    declares. *)
Theorem create_task_defaults (body : TaskBody.t) (token : string) (now : datetime)
  (s : db) (user : User.t) :
  TaskBody.priority body = None ->
  TaskBody.status body = None ->
  fst (get_current_user token s) = Return user ->
  exists task s',
    create_task (TaskCreate_of_body body) token now s = (Return task, s') /\
    In task (tasks_db s') /\
    Task.priority task = "media" /\
    Task.status task = "pendiente".
Proof.
  intros Hp Hs Hu. eexists. eexists.
  split; [apply (create_task_eq _ _ _ _ _ Hu)|]. simpl.
  split; [apply in_or_app; right; left; reflexivity|].
  unfold from_default. rewrite Hp, Hs. split; reflexivity.
Qed.

(** C9. A successful update replaces one task of the store, in place, by a
    task with the same id, the same owner ([user_id]) and the same
    [created_at]; title, description, priority and status are the request's
    and [updated_at] is the clock's minute. The tasks before and after it are
    the same, so every task of another id is in the store afterwards exactly
    if it was before; accounts and counters are unchanged. *)
Theorem update_task_frame (task_id : Z) (task_data : TaskCreate.t) (token : string)
  (now : datetime) (s s' : db) (task' : Task.t) :
  update_task task_id task_data token now s = (Return task', s') ->
  exists user l1 task l2,
    fst (get_current_user token s) = Return user /\
    tasks_db s = l1 ++ task :: l2 /\
    tasks_db s' = l1 ++ task' :: l2 /\
    (Task.id task = task_id /\ Task.user_id task = User.id user) /\
    (Task.id task' = Task.id task /\
     Task.user_id task' = Task.user_id task /\
     Task.created_at task' = Task.created_at task) /\
    (Task.title task' = TaskCreate.title task_data /\
     Task.description task' = TaskCreate.description task_data /\
     Task.priority task' = TaskCreate.priority task_data /\
     Task.status task' = TaskCreate.status task_data /\
     Task.updated_at task' = strftime_minute now) /\
    (forall other, Task.id other <> task_id ->
       (In other (tasks_db s) <-> In other (tasks_db s'))) /\
    users_db s' = users_db s /\
    current_user_id s' = current_user_id s /\
    current_task_id s' = current_task_id s.
Proof using.
  intros H.
  destruct (update_task_cases task_id task_data token now s)
    as [[e He]|(user & l1 & task & l2 & Hu & Hm & Heq)]; [congruence|].
  rewrite Heq in H. inversion H. subst task' s'. clear H.
  destruct Hm as (Ht & Hp & _). apply is_task_of_true in Hp. destruct Hp as [Hid Huid].
  exists user, l1, task, l2. simpl.
  split; [exact Hu|]. split; [exact Ht|]. split; [reflexivity|].
  split; [split; assumption|].
  split; [repeat split|]. split; [repeat split|].
  split; [|repeat split].
  intros other Hne. rewrite Ht, !in_app_iff. simpl. split.
  - intros [Hin|[E|Hin]]; [auto| |auto]. exfalso. apply Hne. rewrite <- E. exact Hid.
  - intros [Hin|[E|Hin]]; [auto| |auto]. exfalso. apply Hne. rewrite <- E. exact Hid.
Qed.

(** C10. Update replaces, it does not patch. For a task the caller owns, an
    update whose body omits the description, the priority or the status
    stores the request model's default in that field -- no description,
    priority "media", status "pendiente" -- whatever the task held there
    before; the task read back afterwards is the one the update returned. *)
Theorem update_task_replaces_omitted (task_id : Z) (body : TaskBody.t) (token : string)
  (now : datetime) (s : db) (task : Task.t) :
  fst (get_task task_id token s) = Return task ->
  exists task' s',
    update_task task_id (TaskCreate_of_body body) token now s = (Return task', s') /\
    get_task task_id token s' = (Return task', s') /\
    Task.title task' = TaskBody.title body /\
    (TaskBody.description body = None -> Task.description task' = None) /\
    (TaskBody.priority body = None ->
       Task.priority task' = TaskBase_default_priority /\ Task.priority task' = "media") /\
    (TaskBody.status body = None ->
       Task.status task' = TaskBase_default_status /\ Task.status task' = "pendiente").
Proof.
  intros Hg. destruct (get_task_Return _ _ _ _ Hg) as (user & Hu & Hs).
  destruct (get_scan_Some _ _ _ _ Hs) as (l1 & l2 & Hm).
  exists (overwrite (TaskCreate_of_body body) now task).
  exists (set_tasks_db (l1 ++ overwrite (TaskCreate_of_body body) now task :: l2) s).
  split; [apply (update_task_found _ _ _ _ _ _ _ _ _ Hu Hm)|]. split.
  - rewrite (get_task_eq _ _ _ user).
    + simpl.
      rewrite (first_match_get_scan _ _ _ _ _ _
                 (first_match_overwrite _ _ (TaskCreate_of_body body) now _ _ _ _ Hm)).
      reflexivity.
    + rewrite <- Hu. apply get_current_user_users. reflexivity.
  - simpl. split; [reflexivity|].
    unfold from_default.
    split; [intros E; rewrite E; reflexivity|].
    split; intros E; rewrite E; split; reflexivity.
Qed.


(** *** Registration *)

(** C6. In a reachable state, registering an email that is present raises
    the 400 "duplicate account" exception and leaves the database as it was:
    the account stored under the email (id, name, password digest, token) and
    the account-id counter are untouched. Registering an absent email appends
    an account whose id is the counter's value, greater than the id of every
    account there is, with no token; the counter goes up by one and the
    response carries that id. *)
Theorem register_duplicate_or_fresh (user_data : UserCreate.t) (s : db) :
  reachable s ->
  status_code duplicate_account = 400 /\
  (forall existing,
     dict_get (UserCreate.email user_data) (users_db s) = Some existing ->
     dict_contains (UserCreate.email user_data) (users_db s) = true /\
     register user_data s = (Raise duplicate_account, s)) /\
  (dict_contains (UserCreate.email user_data) (users_db s) = false ->
     let account :=
       UserData.mk (current_user_id s) (UserCreate.name user_data)
         (hash_password (UserCreate.password user_data)) None in
     register user_data s =
     (Return (RegisterResponse.mk "Usuario registrado exitosamente" (current_user_id s)),
      {| users_db := users_db s ++ [(UserCreate.email user_data, account)];
         tasks_db := tasks_db s;
         current_user_id := current_user_id s + 1;
         current_task_id := current_task_id s |}) /\
     Forall (fun item => account_id item < current_user_id s) (users_db s)).
Proof.
  intros Hr. apply reachable_consistent in Hr.
  split; [reflexivity|]. split.
  - intros existing Hg. unfold dict_contains. rewrite register_eq, Hg. auto.
  - unfold dict_contains. rewrite register_eq.
    destruct (dict_get (UserCreate.email user_data) (users_db s)); [discriminate|].
    intros _. split; [reflexivity|].
    pose proof (account_ids_below s Hr) as Hb. rewrite Forall_map in Hb.
    eapply Forall_impl; [|exact Hb]. simpl. intros; lia.
Qed.

(** *** The task-id counter *)

Lemma serve_current_task_id (r : request) (s : db) :
  current_task_id (serve r s) =
  current_task_id s + (if creates r s then 1 else 0).
Proof.
  destruct r as [ud|ld tok|tok|tok|body tok now|tid body tok now|tid tok|tid tok|now];
    simpl.
  - rewrite register_eq.
    destruct (dict_get (UserCreate.email ud) (users_db s)); simpl; lia.
  - rewrite login_eq.
    destruct (dict_get (LoginRequest.email ld) (users_db s)) as [d|];
      [destruct (String.eqb (UserData.password_hash d) _)|]; simpl; lia.
  - rewrite logout_eq. destruct (logout_scan tok (users_db s)); simpl; lia.
  - rewrite get_tasks_state. lia.
  - destruct (fst (get_current_user tok s)) as [user|e] eqn:Hu.
    + rewrite (create_task_eq _ _ _ _ _ Hu). simpl. lia.
    + destruct (unauthenticated _ _ _ Hu) as (_ & H & _). rewrite H. simpl. lia.
  - destruct (update_task_cases tid (TaskCreate_of_body body) tok now s)
      as [[e H]|(u & l1 & t & l2 & _ & _ & H)]; rewrite H; simpl; lia.
  - destruct (delete_task_cases tid tok s)
      as [[e H]|(u & l1 & t & l2 & _ & _ & H)]; rewrite H; simpl; lia.
  - rewrite get_task_state. lia.
  - lia.
Qed.

Lemma run_current_task_id (reqs : list request) (s : db) :
  current_task_id (run reqs s) = current_task_id s + Z.of_nat (creations reqs s).
Proof.
  revert s. induction reqs as [|r reqs IH]; simpl; intros s; [lia|].
  rewrite IH, serve_current_task_id. destruct (creates r s); lia.
Qed.

Lemma digit_value_digit (n : Z) : digit_value (digit n) = Some (n mod 10).
Proof.
  pose proof (Z.mod_pos_bound n 10 ltac:(lia)) as Hb.
  unfold digit_value, digit.
  rewrite nat_ascii_embedding by lia.
  rewrite Nat2Z.inj_add, Z2Nat.id by lia. simpl Z.of_nat.
  destruct (Z.leb_spec 48 (48 + n mod 10)); [|lia].
  destruct (Z.leb_spec (48 + n mod 10) 57); [|lia].
  cbn [andb]. f_equal. lia.
Qed.

Lemma read_two_digits (n : Z) (rest : string) :
  0 <= n < 100 -> read_digits 2 (zero_padded 2 n rest) 0 = Some (n, rest).
Proof.
  intros Hn. cbn [zero_padded read_digits]. rewrite !digit_value_digit.
  f_equal. f_equal. Z.div_mod_to_equations. lia.
Qed.

Lemma read_four_digits (n : Z) (rest : string) :
  0 <= n < 10000 -> read_digits 4 (zero_padded 4 n rest) 0 = Some (n, rest).
Proof.
  intros Hn. cbn [zero_padded read_digits]. rewrite !digit_value_digit.
  f_equal. f_equal. Z.div_mod_to_equations. lia.
Qed.

Lemma read_strftime_minute (now : datetime) :
  clock_reading now ->
  read_minute_stamp (strftime_minute now) =
  Some (year now, month now, day now, hour now, minute now).
Proof.
  intros (Hy & Hm & Hd & Hh & Hmi). unfold read_minute_stamp, strftime_minute.
  rewrite read_four_digits by lia. cbn [read_char Ascii.eqb Bool.eqb andb].
  rewrite read_two_digits by lia. cbn [read_char Ascii.eqb Bool.eqb andb].
  rewrite read_two_digits by lia. cbn [read_char Ascii.eqb Bool.eqb andb].
  rewrite read_two_digits by lia. cbn [read_char Ascii.eqb Bool.eqb andb].
  rewrite read_two_digits by lia. reflexivity.
Qed.

(** C8. The task-id counter starts at 1 and, along any run, is 1 plus the
    number of tasks created so far, whoever created them. A creation with a
    token that resolves returns a task whose id is the counter's value, whose
    owner is the caller and whose [created_at] and [updated_at] are both the
    clock reading printed to the minute; the task is appended to the store
    and the counter goes up by one. The stamp of a clock reading is the
    16 characters YYYY-MM-DD HH:MM that read back as its year, month, day,
    hour and minute: two readings have the same stamp exactly if they agree
    on these five, whatever their seconds and microseconds. Hence in every
    reachable state the task ids of the store are strictly increasing in
    store (creation) order, distinct, and below the counter. *)
Theorem create_task_assigns_next_id :
  current_task_id init_db = 1 /\
  (forall reqs,
     current_task_id (run reqs init_db) = 1 + Z.of_nat (creations reqs init_db)) /\
  (forall task_data token now s user,
     fst (get_current_user token s) = Return user ->
     exists task,
       create_task task_data token now s =
       (Return task,
        {| users_db := users_db s; tasks_db := tasks_db s ++ [task];
           current_user_id := current_user_id s;
           current_task_id := current_task_id s + 1 |}) /\
       Task.id task = current_task_id s /\
       Task.user_id task = User.id user /\
       Task.created_at task = strftime_minute now /\
       Task.updated_at task = strftime_minute now /\
       (clock_reading now ->
        read_minute_stamp (Task.created_at task) =
        Some (year now, month now, day now, hour now, minute now) /\
        read_minute_stamp (Task.updated_at task) =
        Some (year now, month now, day now, hour now, minute now))) /\
  (forall now,
     clock_reading now ->
     String.length (strftime_minute now) = 16%nat /\
     read_minute_stamp (strftime_minute now) =
     Some (year now, month now, day now, hour now, minute now)) /\
  (forall now now',
     clock_reading now -> clock_reading now' ->
     (strftime_minute now = strftime_minute now' <->
      year now = year now' /\ month now = month now' /\ day now = day now' /\
      hour now = hour now' /\ minute now = minute now')) /\
  (forall now now',
     year now = year now' -> month now = month now' -> day now = day now' ->
     hour now = hour now' -> minute now = minute now' ->
     strftime_minute now = strftime_minute now') /\
  (forall s, reachable s ->
     StronglySorted Z.lt (map Task.id (tasks_db s)) /\
     NoDup (map Task.id (tasks_db s)) /\
     Forall (fun n => 1 <= n < current_task_id s) (map Task.id (tasks_db s))).
Proof.
  assert (forall now now',
            year now = year now' -> month now = month now' -> day now = day now' ->
            hour now = hour now' -> minute now = minute now' ->
            strftime_minute now = strftime_minute now') as Hsame
      by (intros now now'; unfold strftime_minute; intros -> -> -> -> ->; reflexivity).
  split; [reflexivity|]. split; [intros; apply run_current_task_id|].
  split; [|split; [|split; [|split]]].
  - intros task_data token now s user Hu. eexists.
    split; [apply (create_task_eq _ _ _ _ _ Hu)|]. simpl.
    repeat (split; [reflexivity|]).
    intros Hnow. rewrite (read_strftime_minute now Hnow). split; reflexivity.
  - intros now Hnow. split; [reflexivity|apply read_strftime_minute, Hnow].
  - intros now now' Hnow Hnow'. split.
    + intros E. pose proof (read_strftime_minute now Hnow) as R.
      rewrite E, (read_strftime_minute now' Hnow') in R. inversion R. auto.
    + intros (Ey & Em & Ed & Eh & Emi). apply Hsame; assumption.
  - exact Hsame.
  - intros s Hr. apply reachable_consistent in Hr.
    pose proof (task_ids_increase s Hr). pose proof (task_ids_below s Hr).
    auto using StronglySorted_lt_NoDup.
Qed.


(** *** Deletion *)

Lemma gone_step (task_id : Z) (s s' : db) :
  tasks_step s s' -> gone task_id s -> gone task_id s'.
Proof.
  intros Ht [Hlt Hall].
  destruct Ht as [E1 E2|task E1 Hid E2|l1 l2 task task' E0 E1 Hid _ _ E2
                 |l1 l2 task E0 E1 E2]; unfold gone; rewrite E1, E2.
  - auto.
  - split; [lia|]. apply Forall_app. split; [exact Hall|].
    constructor; [lia|constructor].
  - split; [exact Hlt|]. rewrite E0 in Hall. apply Forall_app in Hall.
    destruct Hall as [H1 H2]. inversion H2; subst.
    apply Forall_app. split; [exact H1|]. constructor; [congruence|assumption].
  - split; [exact Hlt|]. rewrite E0 in Hall. apply Forall_app in Hall.
    destruct Hall as [H1 H2]. inversion H2; subst. apply Forall_app. auto.
Qed.

Lemma gone_run (task_id : Z) (reqs : list request) (s : db) :
  gone task_id s -> gone task_id (run reqs s).
Proof.
  revert s. induction reqs as [|r reqs IH]; simpl; intros s H; [exact H|].
  apply IH. apply (gone_step _ s); [apply serve_tasks_step|exact H].
Qed.

Lemma gone_get_scan (task_id owner : Z) (s : db) :
  gone task_id s -> get_scan task_id owner (tasks_db s) = None.
Proof.
  intros [_ Hall]. apply get_scan_absent. intros task Hin Hid.
  rewrite Forall_forall in Hall. exfalso. exact (Hall task Hin Hid).
Qed.

(** C7. In a reachable state, a delete that succeeds returns the task it
    removed: the task of the given id, owned by the caller, and the store is
    the old one without it. No task of the store has that id any more, and
    whatever requests are served afterwards, get, update and delete on that
    id raise and change nothing, for every token: the 404 "not found"
    exception for every caller (every token that resolves), the exception of
    [get_current_user] otherwise. The id is never handed out again. *)
Theorem deleted_task_stays_not_found (task_id : Z) (token : string) (s s' : db)
  (response : DeleteResponse.t) :
  reachable s ->
  delete_task task_id token s = (Return response, s') ->
  (exists user l1 l2,
     fst (get_current_user token s) = Return user /\
     Task.id (DeleteResponse.task response) = task_id /\
     Task.user_id (DeleteResponse.task response) = User.id user /\
     tasks_db s = l1 ++ DeleteResponse.task response :: l2 /\
     tasks_db s' = l1 ++ l2) /\
  (forall task, In task (tasks_db s') -> Task.id task <> task_id) /\
  (forall reqs token',
     let later := run reqs s' in
     let raised :=
       match fst (get_current_user token' later) with
       | Return _ => not_found
       | Raise e => e
       end in
     get_task task_id token' later = (Raise raised, later) /\
     (forall task_data now,
        update_task task_id task_data token' now later = (Raise raised, later)) /\
     delete_task task_id token' later = (Raise raised, later)).
Proof.
  intros Hr H. apply reachable_consistent in Hr.
  destruct (delete_task_cases task_id token s)
    as [[e He]|(user & l1 & task & l2 & Hu & Hm & Heq)]; [congruence|].
  rewrite Heq in H. inversion H; subst; clear H. simpl.
  destruct Hm as (Ht & Hp & _). apply is_task_of_true in Hp. destruct Hp as [Hid Huid].
  assert (gone task_id (set_tasks_db (l1 ++ l2) s)) as Hgone.
  { pose proof (task_ids_below s Hr) as Hb.
    pose proof (StronglySorted_lt_NoDup _ (task_ids_increase s Hr)) as Hnd.
    rewrite Ht, map_app in Hb, Hnd. simpl in Hb, Hnd.
    split; simpl.
    - apply Forall_app in Hb. destruct Hb as [_ Hb]. inversion Hb; subst. lia.
    - apply NoDup_remove_2 in Hnd. rewrite <- map_app in Hnd.
      apply Forall_forall. intros t Hin E. apply Hnd. rewrite Hid, <- E.
      apply in_map, Hin. }
  split; [exists user, l1, l2; auto|]. split.
  - destruct Hgone as [_ Hall]. rewrite Forall_forall in Hall. exact Hall.
  - intros reqs token'.
    destruct (fst (get_current_user token' (run reqs (set_tasks_db (l1 ++ l2) s))))
      as [user'|e] eqn:Hu'.
    + apply (not_found_everywhere _ _ _ _ Hu'), gone_get_scan, gone_run, Hgone.
    + destruct (unauthenticated _ _ _ Hu') as (_ & _ & Hget & Hupd & Hdel).
      split; [apply Hget|]. split; [intros; apply Hupd|apply Hdel].
Qed.


(** *** Sessions *)

Lemma first_holder_skip (token : string) (l1 l : list (string * UserData.t)) :
  (forall e ud, In (e, ud) l1 -> UserData.token ud <> Some token) ->
  first_holder token (l1 ++ l) = first_holder token l.
Proof.
  induction l1 as [|[e ud] l1 IH]; simpl; intros H; [reflexivity|].
  assert (holds_token ud token = false) as ->
      by (apply holds_token_false, (H e); auto).
  apply IH. intros e' ud' Hin. apply (H e'). auto.
Qed.

Lemma only_holder_step (token email : string) (r : request) (s s' : db) :
  users_step r s s' -> drawn_token r <> Some token ->
  only_holder token email s -> only_holder token email s'.
Proof.
  intros Hs Hd Ho e ud.
  destruct Hs as [E1 _|e0 ud0 _ E1 _ Hnone _|l1 l2 e0 ud0 tok E0 E1 Htok _];
    rewrite E1.
  - apply Ho.
  - rewrite in_app_iff. simpl. intros [Hin|[Heq|[]]]; [apply Ho, Hin|].
    inversion Heq; subst. congruence.
  - unfold only_holder in Ho. rewrite E0 in Ho.
    rewrite in_app_iff. simpl. intros [Hin|[Heq|Hin]] Hh.
    + apply (Ho e ud); [rewrite in_app_iff; auto|exact Hh].
    + inversion Heq; subst. simpl in Hh. destruct Htok; congruence.
    + apply (Ho e ud); [rewrite in_app_iff; simpl; auto|exact Hh].
Qed.

Lemma only_holder_run (token email : string) (reqs : list request) (s : db) :
  Forall (fun r => drawn_token r <> Some token) reqs ->
  only_holder token email s -> only_holder token email (run reqs s).
Proof.
  intros Hall. revert s. induction Hall as [|r reqs Hr _ IH]; simpl; intros s H;
    [exact H|].
  apply IH. apply (only_holder_step _ _ r s); [apply serve_users_step|exact Hr|exact H].
Qed.

Lemma dict_get_app_Some {V} (k : string) (l l' : list (string * V)) (v : V) :
  dict_get k l = Some v -> dict_get k (l ++ l') = Some v.
Proof.
  induction l as [|[k' v'] l IH]; simpl; [discriminate|].
  destruct (String.eqb k' k); auto.
Qed.

Lemma same_account_refl (a : UserData.t) : same_account a a.
Proof. repeat split. Qed.

Lemma same_account_trans (a b c : UserData.t) :
  same_account a b -> same_account b c -> same_account a c.
Proof. unfold same_account. intuition congruence. Qed.

Lemma dict_get_token_update (k e : string) (l1 l2 : list (string * UserData.t))
  (ud a : UserData.t) (tok : option string) :
  dict_get k (l1 ++ (e, ud) :: l2) = Some a ->
  exists a', dict_get k (l1 ++ (e, with_token tok ud) :: l2) = Some a' /\
             same_account a a'.
Proof.
  induction l1 as [|[k' v'] l1 IH]; simpl.
  - destruct (String.eqb e k).
    + intros H; inversion H; subst. eexists. split; [reflexivity|]. repeat split.
    + intros H. exists a. split; [exact H|apply same_account_refl].
  - destruct (String.eqb k' k); [|exact IH].
    intros H. exists a. split; [exact H|apply same_account_refl].
Qed.

Lemma account_persists_step (email : string) (a : UserData.t) (r : request)
  (s s' : db) :
  users_step r s s' -> dict_get email (users_db s) = Some a ->
  exists a', dict_get email (users_db s') = Some a' /\ same_account a a'.
Proof.
  intros Hs Hg.
  destruct Hs as [E1 _|e0 ud0 _ E1 _ _ _|l1 l2 e0 ud0 tok E0 E1 _ _]; rewrite E1.
  - exists a. split; [exact Hg|apply same_account_refl].
  - exists a. split; [apply dict_get_app_Some, Hg|apply same_account_refl].
  - rewrite E0 in Hg. apply dict_get_token_update, Hg.
Qed.

Lemma account_persists_run (email : string) (reqs : list request) (s : db)
  (a : UserData.t) :
  dict_get email (users_db s) = Some a ->
  exists a', dict_get email (users_db (run reqs s)) = Some a' /\ same_account a a'.
Proof.
  revert s a. induction reqs as [|r reqs IH]; simpl; intros s a Hg.
  - exists a. split; [exact Hg|apply same_account_refl].
  - destruct (account_persists_step email a r s (serve r s) (serve_users_step r s) Hg)
      as (a1 & Hg1 & Hs1).
    destruct (IH _ _ Hg1) as (a2 & Hg2 & Hs2).
    exists a2. split; [exact Hg2|]. apply (same_account_trans _ a1); assumption.
Qed.

Lemma login_correct (email password token : string) (s : db) (a : UserData.t) :
  dict_get email (users_db s) = Some a ->
  UserData.password_hash a = hash_password password ->
  exists l1 l2,
    users_db s = l1 ++ (email, a) :: l2 /\
    ~ In email (map fst l1) /\
    login (LoginRequest.mk email password) token s =
    (Return (LoginResponse.mk "Login exitoso" token
               (User.mk email (UserData.name a) (UserData.id a))),
     set_users_db (l1 ++ (email, with_token (Some token) a) :: l2) s).
Proof.
  intros Hg Hh.
  destruct (dict_update_split _ (with_token (Some token)) _ _ Hg)
    as (l1 & l2 & E1 & E2 & Hl1).
  exists l1, l2. split; [exact E1|]. split; [exact Hl1|].
  rewrite login_eq. simpl. rewrite Hg, Hh, String.eqb_refl, E2. reflexivity.
Qed.


(** C2. In a reachable state, for an account registered under [email] whose
    stored digest is the digest of [password]: a login with that email and
    password, drawing a token [tok1] that no account holds, succeeds and
    returns [tok1] with the account's identity, and [get_current_user] maps
    [tok1] back to that identity. After any further requests that do not
    draw [tok1] again, a second login of the same account drawing another
    token [tok2] succeeds with the same identity, and from then on
    [get_current_user] on [tok1] raises the 401 "invalid token" exception. *)
Theorem login_token_resolves_until_next_login (s : db) (email password : string)
  (account : UserData.t) (tok1 tok2 : string) (reqs : list request) :
  reachable s ->
  dict_get email (users_db s) = Some account ->
  UserData.password_hash account = hash_password password ->
  unheld tok1 s ->
  Forall (fun r => drawn_token r <> Some tok1) reqs ->
  tok2 <> tok1 ->
  let user := User.mk email (UserData.name account) (UserData.id account) in
  exists s1 s2,
    login (LoginRequest.mk email password) tok1 s =
    (Return (LoginResponse.mk "Login exitoso" tok1 user), s1) /\
    get_current_user tok1 s1 = (Return user, s1) /\
    login (LoginRequest.mk email password) tok2 (run reqs s1) =
    (Return (LoginResponse.mk "Login exitoso" tok2 user), s2) /\
    get_current_user tok1 s2 = (Raise invalid_token, s2) /\
    status_code invalid_token = 401.
Proof.
  intros Hr Hg Hh Hfresh Hreqs Hne user.
  destruct (login_correct email password tok1 s account Hg Hh)
    as (l1 & l2 & E & Hl1 & Hlogin).
  set (s1 := set_users_db (l1 ++ (email, with_token (Some tok1) account) :: l2) s)
    in *.
  assert (s1 = serve (POST_login (LoginRequest.mk email password) tok1) s) as Hs1
      by (simpl; rewrite Hlogin; reflexivity).
  assert (only_holder tok1 email s1) as Honly.
  { intros e ud Hin Htok. simpl in Hin. apply in_app_iff in Hin.
    destruct Hin as [Hin|[Heq|Hin]].
    - exfalso. apply (Hfresh e ud); [rewrite E, in_app_iff; auto|exact Htok].
    - inversion Heq; reflexivity.
    - exfalso. apply (Hfresh e ud); [rewrite E, in_app_iff; simpl; auto|exact Htok]. }
  pose proof (only_holder_run _ _ _ _ Hreqs Honly) as Hmid.
  assert (consistent (run reqs s1)) as Kmid.
  { apply reachable_consistent, reachable_run. rewrite Hs1.
    apply (reachable_run [POST_login (LoginRequest.mk email password) tok1]), Hr. }
  destruct (account_persists_run email
              (POST_login (LoginRequest.mk email password) tok1 :: reqs) s account Hg)
    as (account' & Hg' & Hid & Hname & Hhash).
  change (run (POST_login (LoginRequest.mk email password) tok1 :: reqs) s)
    with (run reqs (serve (POST_login (LoginRequest.mk email password) tok1) s))
    in Hg'.
  rewrite <- Hs1 in Hg'.
  assert (UserData.password_hash account' = hash_password password) as Hh'
      by congruence.
  destruct (login_correct email password tok2 (run reqs s1) account' Hg' Hh')
    as (l1' & l2' & E' & Hl1' & Hlogin').
  exists s1. eexists.
  split; [exact Hlogin|]. split.
  - rewrite get_current_user_eq. simpl. rewrite first_holder_skip.
    + simpl. unfold holds_token. simpl. rewrite String.eqb_refl. reflexivity.
    + intros e ud Hin. apply (Hfresh e). rewrite E, in_app_iff. auto.
  - split; [rewrite Hlogin'; unfold user; rewrite Hid, Hname; reflexivity|].
    split; [|reflexivity].
    apply get_current_user_unheld. intros e ud Hin Htok. simpl in Hin.
    pose proof (keys_unique _ Kmid) as Hnd. rewrite E', map_app in Hnd.
    simpl in Hnd. apply NoDup_remove_2 in Hnd.
    apply in_app_iff in Hin. destruct Hin as [Hin|[Heq|Hin]].
    + assert (e = email) as ->
          by (apply (Hmid e ud); [rewrite E', in_app_iff; auto|exact Htok]).
      apply Hnd, in_app_iff. left. change email with (fst (email, ud)).
      apply in_map, Hin.
    + inversion Heq; subst. simpl in Htok. congruence.
    + assert (e = email) as ->
          by (apply (Hmid e ud); [rewrite E', in_app_iff; simpl; auto|exact Htok]).
      apply Hnd, in_app_iff. right. change email with (fst (email, ud)).
      apply in_map, Hin.
Qed.

(** ** Further properties of the handlers *)

(** *** Sessions: one holder per token *)

Lemma step_tokens_distinct (r : request) (s s' : db) :
  users_step r s s' ->
  match drawn_token r with Some token => unheld token s | None => True end ->
  tokens_distinct s -> tokens_distinct s'.
Proof.
  intros Hs Hfresh Hd e1 u1 e2 u2 token.
  destruct Hs as [E1 _|e0 ud0 _ E1 _ Hnone _|l1 l2 e0 ud0 tok E0 E1 Htok _];
    rewrite E1.
  - apply Hd.
  - rewrite !in_app_iff. simpl.
    intros [H1|[H1|[]]] [H2|[H2|[]]] T1 T2;
      try (inversion H1; subst); try (inversion H2; subst); try congruence.
    apply (Hd e1 u1 e2 u2 token); assumption.
  - assert (forall e u, In (e, u) (l1 ++ l2) -> In (e, u) (users_db s)) as Hold.
    { intros e u Hin. rewrite E0. apply in_app_iff in Hin. apply in_app_iff.
      simpl. tauto. }
    assert (forall e u, In (e, u) (l1 ++ (e0, with_token tok ud0) :: l2) ->
                        UserData.token u = Some token ->
                        (e = e0 /\ tok = Some token) \/ In (e, u) (l1 ++ l2)) as Hsplit.
    { intros e u Hin T. apply in_app_iff in Hin. rewrite in_app_iff.
      destruct Hin as [Hin|[Heq|Hin]]; auto. inversion Heq; subst. auto. }
    intros H1 H2 T1 T2.
    destruct (Hsplit _ _ H1 T1) as [[-> K1]|O1], (Hsplit _ _ H2 T2) as [[-> K2]|O2];
      try reflexivity.
    + exfalso. destruct Htok as [-> | ->]; [discriminate|].
      rewrite K1 in Hfresh. exact (Hfresh _ _ (Hold _ _ O2) T2).
    + exfalso. destruct Htok as [-> | ->]; [discriminate|].
      rewrite K2 in Hfresh. exact (Hfresh _ _ (Hold _ _ O1) T1).
    + apply (Hd e1 u1 e2 u2 token); auto.
Qed.

Lemma run_tokens_distinct (reqs : list request) (s : db) :
  fresh_draws reqs s -> tokens_distinct s -> tokens_distinct (run reqs s).
Proof.
  revert s. induction reqs as [|r reqs IH]; simpl; intros s Hf Hd; [exact Hd|].
  destruct Hf as [Hr Hrest]. apply IH; [exact Hrest|].
  apply (step_tokens_distinct r s); [apply serve_users_step|exact Hr|exact Hd].
Qed.

Lemma tokens_distinct_init : tokens_distinct init_db.
Proof. intros e1 u1 e2 u2 token []. Qed.

Lemma holder_resolves (s : db) (email : string) (account : UserData.t)
  (token : string) :
  consistent s -> tokens_distinct s ->
  In (email, account) (users_db s) ->
  UserData.token account = Some token ->
  first_holder token (users_db s) = Some (email, account).
Proof.
  intros K Hd Hin Htok.
  destruct (first_holder token (users_db s)) as [[e ud]|] eqn:Hf.
  - destruct (first_holder_Some _ _ _ _ Hf) as [Hin' Htok'].
    assert (e = email) as -> by (apply (Hd e ud email account token); assumption).
    f_equal. f_equal.
    assert ((email, ud) = (email, account)) as E
        by (apply (NoDup_map_In_eq fst (users_db s));
            [exact (keys_unique s K)|exact Hin'|exact Hin|reflexivity]).
    inversion E. reflexivity.
  - exfalso. rewrite first_holder_None in Hf. exact (Hf _ _ Hin Htok).
Qed.

(** X1. When every login has drawn a token no account held, a token held by
    an account resolves to that account, whichever account it is and however
    many accounts come before it in the dict: no two accounts hold one
    token. *)
Theorem held_token_resolves_to_its_holder (reqs : list request) (email : string)
  (account : UserData.t) (token : string) :
  fresh_draws reqs init_db ->
  In (email, account) (users_db (run reqs init_db)) ->
  UserData.token account = Some token ->
  tokens_distinct (run reqs init_db) /\
  get_current_user token (run reqs init_db) =
  (Return (User.mk email (UserData.name account) (UserData.id account)),
   run reqs init_db).
Proof.
  intros Hf Hin Htok.
  pose proof (run_tokens_distinct _ _ Hf tokens_distinct_init) as Hd.
  split; [exact Hd|].
  rewrite get_current_user_eq.
  rewrite (holder_resolves _ _ _ _ (run_consistent reqs _ consistent_init) Hd Hin Htok).
  reflexivity.
Qed.

Lemma In_logout_result (l1 l2 : list (string * UserData.t)) (email e : string)
  (account u : UserData.t) :
  In (e, u) (l1 ++ (email, with_token None account) :: l2) ->
  (e = email /\ u = with_token None account) \/ In (e, u) (l1 ++ l2).
Proof.
  rewrite !in_app_iff. simpl. intros [H|[H|H]]; auto. inversion H; auto.
Qed.

(** X2. Logout succeeds exactly when some account holds the token; otherwise
    it raises the 401 "invalid token" exception and changes nothing. A
    successful logout removes the token of the first holder and touches
    nothing else: the emails, ids, names and digests of all accounts, the
    tokens of the other accounts, the tasks and both counters stay. *)
Theorem logout_clears_first_holder (token : string) (s : db) :
  match first_holder token (users_db s) with
  | None =>
      unheld token s /\ logout token s = (Raise invalid_token, s)
  | Some (email, account) =>
      exists l1 l2,
        users_db s = l1 ++ (email, account) :: l2 /\
        UserData.token account = Some token /\
        (forall e u, In (e, u) l1 -> UserData.token u <> Some token) /\
        logout token s =
        (Return "Logout exitoso",
         set_users_db (l1 ++ (email, with_token None account) :: l2) s)
  end.
Proof.
  destruct (first_holder token (users_db s)) as [[email account]|] eqn:Hf.
  - destruct (logout_scan_Some _ _ _ _ Hf) as (l1 & l2 & E1 & E2 & Hl1).
    exists l1, l2. split; [exact E1|].
    split; [apply (first_holder_Some _ _ _ _ Hf)|]. split.
    + intros e u Hin. rewrite Forall_forall in Hl1.
      apply holds_token_false. exact (Hl1 _ Hin).
    + rewrite logout_eq, E2. reflexivity.
  - split; [exact (proj1 (first_holder_None _ _) Hf)|].
    rewrite logout_eq, (logout_scan_None _ _ Hf). reflexivity.
Qed.

(** X3. When every login has drawn a token no account held, logging out with
    a token that resolves ends the session: afterwards [get_current_user] on
    the token raises the 401 "invalid token" exception, so do the task
    handlers, and a second logout with it raises 401 too. *)
Theorem logout_ends_the_session (reqs : list request) (token : string)
  (user : User.t) :
  fresh_draws reqs init_db ->
  fst (get_current_user token (run reqs init_db)) = Return user ->
  exists s',
    logout token (run reqs init_db) = (Return "Logout exitoso", s') /\
    unheld token s' /\
    get_current_user token s' = (Raise invalid_token, s') /\
    get_tasks token s' = (Raise invalid_token, s') /\
    logout token s' = (Raise invalid_token, s') /\
    tasks_db s' = tasks_db (run reqs init_db).
Proof.
  intros Hf Hu. set (s := run reqs init_db) in *.
  assert (consistent s) as K by apply (run_consistent reqs _ consistent_init).
  pose proof (run_tokens_distinct _ _ Hf tokens_distinct_init) as Hd. fold s in Hd.
  rewrite get_current_user_eq in Hu. simpl in Hu.
  destruct (first_holder token (users_db s)) as [[email account]|] eqn:Hfh;
    [|discriminate].
  destruct (logout_scan_Some _ _ _ _ Hfh) as (l1 & l2 & E1 & E2 & _).
  destruct (first_holder_Some _ _ _ _ Hfh) as [Hin Htok].
  exists (set_users_db (l1 ++ (email, with_token None account) :: l2) s).
  assert (unheld token
            (set_users_db (l1 ++ (email, with_token None account) :: l2) s)) as Hun.
  { intros e u Hin' Htok'. simpl in Hin'.
    destruct (In_logout_result _ _ _ _ _ _ Hin') as [[-> ->]|Hold];
      [discriminate Htok'|].
    assert (In (e, u) (users_db s)) as Hin''
        by (rewrite E1; apply in_app_iff in Hold; apply in_app_iff; simpl; tauto).
    assert (e = email) as -> by (apply (Hd e u email account token); assumption).
    pose proof (keys_unique s K) as Hnd. rewrite E1, map_app in Hnd. simpl in Hnd.
    apply NoDup_remove_2 in Hnd. apply Hnd. rewrite <- map_app.
    change email with (fst (email, u)). apply in_map, Hold. }
  split; [rewrite logout_eq, E2; reflexivity|]. split; [exact Hun|].
  pose proof (get_current_user_unheld _ _ Hun) as Hg.
  split; [exact Hg|]. split.
  - apply unauthenticated. rewrite Hg. reflexivity.
  - split; [|reflexivity].
    rewrite logout_eq, logout_scan_None; [reflexivity|].
    apply first_holder_None. exact Hun.
Qed.

(** *** Credentials *)

Lemma verify_user_eq (email password : string) (s : db) :
  verify_user email password s =
  (Return
     match dict_get email (users_db s) with
     | Some account =>
         if String.eqb (UserData.password_hash account) (hash_password password)
         then Some (User.mk email (UserData.name account) (UserData.id account))
         else None
     | None => None
     end, s).
Proof.
  run_handler. destruct (dict_get email (users_db s)) as [account|]; [|reflexivity].
  destruct (String.eqb (UserData.password_hash account) (hash_password password));
    reflexivity.
Qed.

(** X4. A login whose email is not registered, or whose password's digest is
    not the stored one, raises the 401 "invalid credentials" exception and
    changes nothing: no token is issued and the tokens in force stay in
    force. [verify_user] itself reports no match without raising. *)
Theorem login_rejects_bad_credentials (login_data : LoginRequest.t) (token : string)
  (s : db) :
  (forall account,
     dict_get (LoginRequest.email login_data) (users_db s) = Some account ->
     UserData.password_hash account <>
     hash_password (LoginRequest.password login_data)) ->
  status_code invalid_credentials = 401 /\
  verify_user (LoginRequest.email login_data) (LoginRequest.password login_data) s =
  (Return None, s) /\
  login login_data token s = (Raise invalid_credentials, s) /\
  (forall other,
     get_current_user other (snd (login login_data token s)) =
     get_current_user other s).
Proof.
  intros Hbad. split; [reflexivity|].
  assert (login login_data token s = (Raise invalid_credentials, s)) as Hl.
  { rewrite login_eq.
    destruct (dict_get (LoginRequest.email login_data) (users_db s)) as [a|] eqn:Hg;
      [|reflexivity].
    destruct (String.eqb_spec (UserData.password_hash a)
                (hash_password (LoginRequest.password login_data))) as [E|_];
      [|reflexivity].
    exfalso. exact (Hbad a eq_refl E). }
  split.
  - rewrite verify_user_eq.
    destruct (dict_get (LoginRequest.email login_data) (users_db s)) as [a|] eqn:Hg;
      [|reflexivity].
    destruct (String.eqb_spec (UserData.password_hash a)
                (hash_password (LoginRequest.password login_data))) as [E|_];
      [|reflexivity].
    exfalso. exact (Hbad a eq_refl E).
  - split; [exact Hl|]. intros other. rewrite Hl. reflexivity.
Qed.

Lemma first_holder_dict_update (token other email : string)
  (items : list (string * UserData.t)) (e : string) (u : UserData.t) :
  first_holder other items = Some (e, u) ->
  e <> email -> other <> token ->
  first_holder other (dict_update email (with_token (Some token)) items) =
  Some (e, u).
Proof.
  intros Hf Hne Hto. induction items as [|[k v] items IH]; simpl in *; [discriminate|].
  destruct (String.eqb_spec k email) as [->|Hk]; simpl.
  - destruct (holds_token v other) eqn:Hv; [inversion Hf; subst; contradiction|].
    assert (holds_token (with_token (Some token) v) other = false) as ->.
    { unfold holds_token. simpl. apply String.eqb_neq. congruence. }
    exact Hf.
  - destruct (holds_token v other); [exact Hf|]. apply IH, Hf.
Qed.

(** X5. A successful login of one account does not disturb the session of
    another: a token that resolved to an account registered under another
    email, and that is not the token just drawn, resolves to the same user
    afterwards. The login changes neither the tasks nor the counters. *)
Theorem login_keeps_other_sessions (login_data : LoginRequest.t) (token other : string)
  (s : db) (user : User.t) :
  fst (get_current_user other s) = Return user ->
  User.email user <> LoginRequest.email login_data ->
  other <> token ->
  let s' := snd (login login_data token s) in
  get_current_user other s' = (Return user, s') /\
  tasks_db s' = tasks_db s /\
  current_user_id s' = current_user_id s /\
  current_task_id s' = current_task_id s.
Proof.
  intros Hu Hne Hto s'. subst s'. rewrite login_eq.
  rewrite get_current_user_eq in Hu. simpl in Hu.
  destruct (first_holder other (users_db s)) as [[e u]|] eqn:Hf; [|discriminate].
  inversion Hu; subst; simpl in Hne.
  destruct (dict_get (LoginRequest.email login_data) (users_db s)) as [a|];
    [destruct (String.eqb (UserData.password_hash a) _)|]; simpl;
    rewrite get_current_user_eq; simpl;
    try rewrite (first_holder_dict_update _ _ _ _ _ _ Hf Hne Hto);
    try rewrite Hf; auto.
Qed.

Lemma dict_get_app_None {V} (k : string) (l l' : list (string * V)) :
  dict_get k l = None -> dict_get k (l ++ l') = dict_get k l'.
Proof.
  induction l as [|[k' v'] l IH]; simpl; [reflexivity|].
  destruct (String.eqb k' k); [discriminate|exact IH].
Qed.

Lemma login_resolves (email password token : string) (s : db) (a : UserData.t) :
  dict_get email (users_db s) = Some a ->
  UserData.password_hash a = hash_password password ->
  unheld token s ->
  exists s',
    login (LoginRequest.mk email password) token s =
    (Return (LoginResponse.mk "Login exitoso" token
               (User.mk email (UserData.name a) (UserData.id a))), s') /\
    get_current_user token s' =
    (Return (User.mk email (UserData.name a) (UserData.id a)), s').
Proof.
  intros Hg Hh Hfresh.
  destruct (login_correct email password token s a Hg Hh)
    as (l1 & l2 & E & _ & Hlogin).
  eexists. split; [exact Hlogin|].
  rewrite get_current_user_eq. simpl. rewrite first_holder_skip.
  - simpl. unfold holds_token. simpl. rewrite String.eqb_refl. reflexivity.
  - intros e ud Hin. apply (Hfresh e). rewrite E, in_app_iff. auto.
Qed.

Lemma first_holder_snoc_tokenless (token email : string) (account : UserData.t)
  (items : list (string * UserData.t)) :
  UserData.token account = None ->
  first_holder token (items ++ [(email, account)]) = first_holder token items.
Proof.
  intros Hnone. induction items as [|[e u] items IH]; simpl.
  - unfold holds_token. rewrite Hnone. reflexivity.
  - destruct (holds_token u token); [reflexivity|exact IH].
Qed.

(** X6. Register, then log in, then resolve. A registration under an email
    that was absent changes the resolution of no token: every token resolves
    after it as it did before, so no token at all resolves to the new account
    until it logs in. A login with the same email and password then succeeds
    and carries the id the registration returned; with a token no account
    holds, [get_current_user] maps the token to the new account. A login with
    a password of another digest is refused. *)
Theorem register_then_login (user_data : UserCreate.t) (token : string) (s : db) :
  dict_contains (UserCreate.email user_data) (users_db s) = false ->
  unheld token s ->
  let user :=
    User.mk (UserCreate.email user_data) (UserCreate.name user_data)
      (current_user_id s) in
  let credentials :=
    LoginRequest.mk (UserCreate.email user_data) (UserCreate.password user_data) in
  exists s1 s2,
    register user_data s =
    (Return (RegisterResponse.mk "Usuario registrado exitosamente" (User.id user)), s1) /\
    get_current_user token s1 = (Raise invalid_token, s1) /\
    login credentials token s1 =
    (Return (LoginResponse.mk "Login exitoso" token user), s2) /\
    get_current_user token s2 = (Return user, s2) /\
    (forall password,
       hash_password password <> hash_password (UserCreate.password user_data) ->
       login (LoginRequest.mk (UserCreate.email user_data) password) token s1 =
       (Raise invalid_credentials, s1)) /\
    (forall other,
       fst (get_current_user other s1) = fst (get_current_user other s)) /\
    (forall other resolved,
       fst (get_current_user other s1) = Return resolved ->
       User.email resolved <> UserCreate.email user_data /\
       (reachable s -> User.id resolved <> User.id user)).
Proof.
  intros Habsent Hfresh user credentials. unfold dict_contains in Habsent.
  destruct (dict_get (UserCreate.email user_data) (users_db s)) eqn:Hg;
    [discriminate|].
  pose (account :=
          UserData.mk (current_user_id s) (UserCreate.name user_data)
            (hash_password (UserCreate.password user_data)) None).
  pose (s1 :=
          {| users_db := users_db s ++ [(UserCreate.email user_data, account)];
             tasks_db := tasks_db s;
             current_user_id := current_user_id s + 1;
             current_task_id := current_task_id s |}).
  assert (register user_data s =
          (Return (RegisterResponse.mk "Usuario registrado exitosamente"
                     (current_user_id s)), s1)) as Hreg
      by (rewrite register_eq, Hg; reflexivity).
  assert (dict_get (UserCreate.email user_data) (users_db s1) = Some account) as Hg1.
  { simpl. rewrite (dict_get_app_None _ _ _ Hg). simpl.
    rewrite String.eqb_refl. reflexivity. }
  assert (unheld token s1) as Hfresh1.
  { intros e u Hin. simpl in Hin. apply in_app_iff in Hin.
    destruct Hin as [Hin|[Heq|[]]]; [exact (Hfresh e u Hin)|].
    inversion Heq; subst. discriminate. }
  assert (forall other,
            fst (get_current_user other s1) = fst (get_current_user other s))
    as Hsame.
  { intros other. rewrite !get_current_user_eq. cbn [fst users_db s1].
    rewrite first_holder_snoc_tokenless by reflexivity. reflexivity. }
  destruct (login_resolves _ (UserCreate.password user_data) token s1 _ Hg1 eq_refl
              Hfresh1) as (s2 & Hlogin & Hres).
  exists s1, s2. split; [exact Hreg|].
  split; [apply get_current_user_unheld, Hfresh1|].
  split; [exact Hlogin|]. split; [exact Hres|]. split; [|split].
  - intros password Hne. rewrite login_eq.
    cbn [LoginRequest.email LoginRequest.password]. rewrite Hg1.
    cbn [account UserData.password_hash].
    destruct (String.eqb_spec (hash_password (UserCreate.password user_data))
                (hash_password password)) as [E|_]; [congruence|reflexivity].
  - exact Hsame.
  - intros other resolved Hres1. rewrite Hsame in Hres1.
    destruct (get_current_user_Return _ _ _ Hres1) as (ud & Hin & _ & Hid & _).
    split.
    + intros E. apply dict_get_None in Hg. apply Hg. rewrite <- E.
      change (User.email resolved) with (fst (User.email resolved, ud)).
      apply in_map, Hin.
    + intros Hr. apply reachable_consistent in Hr.
      pose proof (account_ids_below s Hr) as Hb.
      rewrite Forall_map, Forall_forall in Hb. specialize (Hb _ Hin).
      unfold account_id in Hb. simpl in Hb. simpl. lia.
Qed.

(** X7. Accounts are permanent. Once an email is registered, whatever
    requests are served afterwards, the email stays registered with the same
    id, name and password digest: the password that verified still verifies,
    to the same user, and registering the email again is refused with the
    400 "duplicate account" exception, changing nothing. *)
Theorem account_is_permanent (email : string) (account : UserData.t)
  (reqs : list request) (s : db) :
  dict_get email (users_db s) = Some account ->
  exists account',
    dict_get email (users_db (run reqs s)) = Some account' /\
    same_account account account' /\
    (forall password,
       fst (verify_user email password (run reqs s)) =
       fst (verify_user email password s)) /\
    (forall name password,
       register (UserCreate.mk email name password) (run reqs s) =
       (Raise duplicate_account, run reqs s)).
Proof.
  intros Hg.
  destruct (account_persists_run email reqs s account Hg)
    as (account' & Hg' & Hid & Hname & Hhash).
  exists account'. split; [exact Hg'|]. split; [repeat split; assumption|]. split.
  - intros password. rewrite !verify_user_eq. simpl.
    rewrite Hg, Hg', Hid, Hname, Hhash. reflexivity.
  - intros name password. rewrite register_eq. simpl. rewrite Hg'. reflexivity.
Qed.

(** *** Tasks: creation order and listing *)

Lemma sorted_by_id_reverse_snoc (l : list Task.t) (t : Task.t) :
  Forall (fun x => Task.id x < Task.id t) l ->
  sorted_by_id_reverse (l ++ [t]) = t :: sorted_by_id_reverse l.
Proof.
  induction 1 as [|x l Hx _ IH]; simpl; [reflexivity|].
  rewrite IH. simpl. apply Z.ltb_lt in Hx. rewrite Hx. reflexivity.
Qed.

Lemma sorted_by_id_reverse_rev (l : list Task.t) :
  StronglySorted Z.lt (map Task.id l) -> sorted_by_id_reverse l = rev l.
Proof.
  induction l as [|t l IH] using rev_ind; intros Hs; [reflexivity|].
  rewrite rev_app_distr. simpl.
  assert (StronglySorted Z.lt (map Task.id l) /\
          Forall (fun x => Task.id x < Task.id t) l) as [Hl Ht].
  { clear IH. induction l as [|y l IH]; simpl in *; [split; constructor|].
    inversion Hs as [|? ? Hs' Hy]; subst. destruct (IH Hs') as [H1 H2].
    rewrite map_app, Forall_app in Hy. simpl in Hy. destruct Hy as [Hy1 Hy2].
    inversion Hy2; subst. split; constructor; assumption. }
  rewrite (sorted_by_id_reverse_snoc _ _ Ht), (IH Hl). reflexivity.
Qed.

Lemma StronglySorted_filter_ids (p : Task.t -> bool) (l : list Task.t) :
  StronglySorted Z.lt (map Task.id l) ->
  StronglySorted Z.lt (map Task.id (filter p l)).
Proof.
  induction l as [|x l IH]; simpl; intros Hs; [constructor|].
  inversion Hs as [|? ? Hs' Hx]; subst.
  destruct (p x); simpl; [|auto]. constructor; [auto|].
  rewrite Forall_forall in *. intros n Hn. apply Hx.
  apply in_map_iff in Hn. destruct Hn as (z & <- & Hz).
  apply filter_In in Hz. apply in_map. tauto.
Qed.

(** X8. In a reachable state the list handler returns the caller's tasks in
    the reverse of the order in which the store holds them, that is, most
    recently created first. *)
Theorem get_tasks_is_reverse_creation_order (token : string) (s : db) (user : User.t) :
  reachable s ->
  fst (get_current_user token s) = Return user ->
  get_tasks token s =
  (Return (rev (filter (owned_by (User.id user)) (tasks_db s))), s).
Proof.
  intros Hr Hu. apply reachable_consistent in Hr.
  rewrite (get_tasks_eq _ _ _ Hu). f_equal. f_equal.
  apply (sorted_by_id_reverse_rev (filter (owned_by (User.id user)) (tasks_db s))).
  apply StronglySorted_filter_ids, (task_ids_increase s Hr).
Qed.

(** X9. Create, then read. In a reachable state, the task a creation returns
    is the task [get_task] returns for its id with the same token, and it is
    the first of the caller's list, followed by the list as it was. *)
Theorem create_then_get (task_data : TaskCreate.t) (token : string) (now : datetime)
  (s : db) (user : User.t) :
  reachable s ->
  fst (get_current_user token s) = Return user ->
  exists task s' before,
    create_task task_data token now s = (Return task, s') /\
    get_task (Task.id task) token s' = (Return task, s') /\
    get_tasks token s = (Return before, s) /\
    get_tasks token s' = (Return (task :: before), s').
Proof.
  intros Hr Hu. apply reachable_consistent in Hr.
  pose proof (create_task_eq task_data _ now _ _ Hu) as Hc. simpl in Hc.
  match type of Hc with _ = (Return ?t, ?st) => set (task := t) in *; set (s' := st) in * end.
  assert (fst (get_current_user token s') = Return user) as Hu'
      by (rewrite <- Hu; apply get_current_user_users; reflexivity).
  assert (Forall (fun x => Task.id x < Task.id task) (tasks_db s)) as Hlt.
  { pose proof (task_ids_below s Hr) as Hb. rewrite Forall_map in Hb.
    eapply Forall_impl; [|exact Hb]. simpl. intros; lia. }
  exists task, s', (sorted_by_id_reverse
                      (filter (owned_by (User.id user)) (tasks_db s))).
  split; [exact Hc|]. split; [|split].
  - rewrite (get_task_eq _ _ _ _ Hu').
    rewrite (first_match_get_scan _ _ _ (tasks_db s) [] task); [reflexivity|].
    split; [reflexivity|]. split.
    + apply is_task_of_true. split; reflexivity.
    + rewrite Forall_forall in *. intros x Hx.
      destruct (is_task_of (Task.id task) (User.id user) x) eqn:E; [|reflexivity].
      apply is_task_of_true in E. specialize (Hlt x Hx). lia.
  - exact (get_tasks_eq _ _ _ Hu).
  - rewrite (get_tasks_eq _ _ _ Hu'). f_equal. f_equal.
    change (tasks_db s') with (tasks_db s ++ [task]).
    rewrite filter_app. cbn [filter].
    assert ((Task.user_id task =? User.id user) = true) as -> by apply Z.eqb_refl.
    apply (sorted_by_id_reverse_snoc
             (filter (owned_by (User.id user)) (tasks_db s)) task).
    rewrite Forall_forall in *. intros x Hx. apply filter_In in Hx. apply Hlt, Hx.
Qed.

(** *** Tasks: what never changes *)

Lemma task_origin_step (t : Task.t) (s s' : db) :
  tasks_step s s' ->
  (Task.id t < current_task_id s /\
   forall t', In t' (tasks_db s) -> Task.id t' = Task.id t ->
              Task.user_id t' = Task.user_id t /\
              Task.created_at t' = Task.created_at t) ->
  Task.id t < current_task_id s' /\
  forall t', In t' (tasks_db s') -> Task.id t' = Task.id t ->
             Task.user_id t' = Task.user_id t /\
             Task.created_at t' = Task.created_at t.
Proof.
  intros Hs [Hlt Hsame].
  destruct Hs as [E1 E2|task E1 Hid E2|l1 l2 task task' E0 E1 Hid Huid Hcr E2
                 |l1 l2 task E0 E1 E2]; rewrite E1, E2.
  - auto.
  - split; [lia|]. intros t' Hin Ht'. apply in_app_iff in Hin.
    destruct Hin as [Hin|[<-|[]]]; [auto|lia].
  - split; [exact Hlt|]. rewrite E0 in Hsame. intros t' Hin Ht'.
    apply in_app_iff in Hin. destruct Hin as [Hin|[<-|Hin]].
    + apply Hsame; [apply in_app_iff; auto|exact Ht'].
    + rewrite Huid, Hcr. apply Hsame; [apply in_app_iff; simpl; auto|congruence].
    + apply Hsame; [apply in_app_iff; simpl; auto|exact Ht'].
  - split; [exact Hlt|]. rewrite E0 in Hsame. intros t' Hin Ht'.
    apply Hsame; [|exact Ht']. apply in_app_iff in Hin. apply in_app_iff.
    simpl. tauto.
Qed.

(** X10. The owner and the creation stamp of a task are for ever. In a
    reachable state, take a task of the store; whatever requests are served
    afterwards, a task of the store with that id has the same [user_id] and
    the same [created_at]: no update changes them and the id is not given to
    another task, even after a delete. *)
Theorem task_owner_is_immutable (s : db) (task : Task.t) (reqs : list request)
  (task' : Task.t) :
  reachable s ->
  In task (tasks_db s) ->
  In task' (tasks_db (run reqs s)) ->
  Task.id task' = Task.id task ->
  Task.user_id task' = Task.user_id task /\
  Task.created_at task' = Task.created_at task.
Proof.
  intros Hr Hin. apply reachable_consistent in Hr.
  assert (Task.id task < current_task_id s /\
          forall t', In t' (tasks_db s) -> Task.id t' = Task.id task ->
                     Task.user_id t' = Task.user_id task /\
                     Task.created_at t' = Task.created_at task) as H0.
  { split.
    - pose proof (task_ids_below s Hr) as Hb. rewrite Forall_map, Forall_forall in Hb.
      apply (Hb task Hin).
    - intros t' Hin' E.
      rewrite (consistent_task_ids_unique s t' task Hr Hin' Hin E). auto. }
  clear Hin Hr. revert s H0.
  induction reqs as [|r reqs IH]; simpl; intros s H0 Hin' E.
  - apply (proj2 H0); assumption.
  - apply (IH (serve r s)); [|exact Hin'|exact E].
    apply (task_origin_step task s); [apply serve_tasks_step|exact H0].
Qed.

(** X11. In a reachable state, an id that the counter has not handed out --
    below 1, or at or above [current_task_id] -- names no task: for a token
    that resolves, get, update and delete on it raise the 404 "not found"
    exception and change nothing. *)
Theorem unassigned_id_is_not_found (task_id : Z) (token : string) (s : db)
  (user : User.t) :
  reachable s ->
  fst (get_current_user token s) = Return user ->
  task_id < 1 \/ current_task_id s <= task_id ->
  get_task task_id token s = (Raise not_found, s) /\
  (forall task_data now,
     update_task task_id task_data token now s = (Raise not_found, s)) /\
  delete_task task_id token s = (Raise not_found, s).
Proof.
  intros Hr Hu Hout. apply reachable_consistent in Hr.
  apply (not_found_everywhere _ _ _ _ Hu), get_scan_absent.
  intros task Hin Hid _.
  pose proof (task_ids_below s Hr) as Hb. rewrite Forall_map, Forall_forall in Hb.
  specialize (Hb task Hin). simpl in Hb. lia.
Qed.

Lemma filter_other_owner (owner : Z) (l1 l2 : list Task.t) (task : Task.t) :
  Task.user_id task <> owner ->
  filter (owned_by owner) (l1 ++ task :: l2) = filter (owned_by owner) (l1 ++ l2).
Proof.
  intros Hne. rewrite !filter_app. simpl.
  assert (owned_by owner task = false) as -> by (apply Z.eqb_neq; exact Hne).
  reflexivity.
Qed.

(** X12. Isolation of the list. A request on tasks made with the token of
    one account -- list, create, get, update or delete, successful or not --
    does not change what the list handler returns to another account, nor
    the accounts. *)
Theorem other_listing_unchanged (r : request) (s : db) (token_A token_B : string)
  (user_A user_B : User.t) :
  task_request_token r = Some token_A ->
  fst (get_current_user token_A s) = Return user_A ->
  fst (get_current_user token_B s) = Return user_B ->
  User.id user_A <> User.id user_B ->
  users_db (serve r s) = users_db s /\
  fst (get_tasks token_B (serve r s)) = fst (get_tasks token_B s).
Proof.
  intros Hr HA HB Hne.
  assert (forall s', users_db s' = users_db s ->
            filter (owned_by (User.id user_B)) (tasks_db s') =
            filter (owned_by (User.id user_B)) (tasks_db s) ->
            users_db s' = users_db s /\
            fst (get_tasks token_B s') = fst (get_tasks token_B s)) as Hkey.
  { intros s' Eu Et. split; [exact Eu|].
    assert (fst (get_current_user token_B s') = Return user_B) as HB'
        by (rewrite <- HB; apply get_current_user_users, Eu).
    rewrite (get_tasks_eq _ _ _ HB), (get_tasks_eq _ _ _ HB'). simpl.
    f_equal. f_equal. exact Et. }
  destruct r as [ud|ld tok|tok|tok|body tok now|tid body tok now|tid tok|tid tok|now];
    simpl in Hr; inversion Hr; subst tok; cbn [serve].
  - rewrite get_tasks_state. auto.
  - rewrite (create_task_eq _ _ _ _ _ HA). cbn [snd].
    apply Hkey; [reflexivity|]. cbn [tasks_db].
    rewrite filter_app. cbn [filter].
    assert (forall t, Task.user_id t = User.id user_A ->
                      owned_by (User.id user_B) t = false) as E
        by (intros t Ht; apply Z.eqb_neq; congruence).
    rewrite E by reflexivity. apply app_nil_r.
  - destruct (update_task_cases tid (TaskCreate_of_body body) token_A now s)
      as [[e H]|(u & l1 & t & l2 & Hu & (Ht & Hp & _) & H)]; rewrite H; cbn [snd];
      [auto|].
    rewrite HA in Hu. inversion Hu; subst u.
    apply is_task_of_true in Hp. destruct Hp as [_ Hown].
    apply Hkey; [reflexivity|]. cbn [tasks_db set_tasks_db]. rewrite Ht.
    rewrite !filter_other_owner; [reflexivity|congruence|simpl; congruence].
  - destruct (delete_task_cases tid token_A s)
      as [[e H]|(u & l1 & t & l2 & Hu & (Ht & Hp & _) & H)]; rewrite H; cbn [snd];
      [auto|].
    rewrite HA in Hu. inversion Hu; subst u.
    apply is_task_of_true in Hp. destruct Hp as [_ Hown].
    apply Hkey; [reflexivity|]. cbn [tasks_db set_tasks_db]. rewrite Ht.
    rewrite filter_other_owner; [reflexivity|congruence].
  - rewrite get_task_state. auto.
Qed.

(** *** Counting: account ids and the health report *)

Lemma ids_from_snoc (first : Z) (n : nat) :
  ids_from first (S n) = ids_from first n ++ [first + Z.of_nat n].
Proof.
  revert first. induction n as [|n IH]; intros first.
  - simpl. f_equal. lia.
  - change (ids_from first (S (S n))) with (first :: ids_from (first + 1) (S n)).
    rewrite IH. simpl. f_equal. f_equal. f_equal. lia.
Qed.

Lemma step_account_ids (r : request) (s s' : db) :
  users_step r s s' ->
  map account_id (users_db s) = ids_from 1 (List.length (users_db s)) /\
  current_user_id s = 1 + Z.of_nat (List.length (users_db s)) ->
  map account_id (users_db s') = ids_from 1 (List.length (users_db s')) /\
  current_user_id s' = 1 + Z.of_nat (List.length (users_db s')).
Proof.
  intros Hs [Hm Hc].
  destruct Hs as [E1 E2|e0 ud0 _ E1 Hid _ E2|l1 l2 e0 ud0 tok E0 E1 _ E2];
    rewrite E1, E2.
  - auto.
  - rewrite map_app, List.length_app, Nat.add_comm.
    cbn [List.length map Nat.add].
    rewrite ids_from_snoc, Hm. change (account_id (e0, ud0)) with (UserData.id ud0).
    rewrite Hid, Hc. split; [reflexivity|lia].
  - rewrite E0 in Hm, Hc. rewrite !map_app, !List.length_app in *. simpl in *.
    auto.
Qed.

Lemma run_account_ids (reqs : list request) (s : db) :
  map account_id (users_db s) = ids_from 1 (List.length (users_db s)) /\
  current_user_id s = 1 + Z.of_nat (List.length (users_db s)) ->
  map account_id (users_db (run reqs s)) =
  ids_from 1 (List.length (users_db (run reqs s))) /\
  current_user_id (run reqs s) = 1 + Z.of_nat (List.length (users_db (run reqs s))).
Proof.
  revert s. induction reqs as [|r reqs IH]; simpl; intros s H; [exact H|].
  apply IH. apply (step_account_ids r s); [apply serve_users_step|exact H].
Qed.


(** X13. In a reachable state with n accounts, the account ids are 1, 2,
    ..., n in the order of registration and the counter [current_user_id] is
    n + 1: every successful registration took the next id and no account was
    ever removed. *)
Theorem account_ids_are_consecutive (s : db) :
  reachable s ->
  map account_id (users_db s) = ids_from 1 (List.length (users_db s)) /\
  current_user_id s = 1 + Z.of_nat (List.length (users_db s)).
Proof.
  intros [reqs ->]. apply run_account_ids. split; reflexivity.
Qed.


Lemma listing_around (owner : Z) (l1 l2 : list Task.t) (task : Task.t) :
  Task.user_id task = owner ->
  StronglySorted Z.lt (map Task.id (l1 ++ task :: l2)) ->
  sorted_by_id_reverse (filter (fun t => Task.user_id t =? owner) (l1 ++ task :: l2)) =
  rev (filter (owned_by owner) l2) ++ task :: rev (filter (owned_by owner) l1).
Proof.
  intros Hown Hs.
  change (fun t => Task.user_id t =? owner) with (owned_by owner).
  rewrite sorted_by_id_reverse_rev by (apply StronglySorted_filter_ids, Hs).
  rewrite filter_app. cbn [filter].
  assert (owned_by owner task = true) as -> by (apply Z.eqb_eq, Hown).
  rewrite rev_app_distr. simpl. rewrite <- app_assoc. reflexivity.
Qed.

(** X15. An update keeps the task's place in the owner's list. In a
    reachable state, after a successful update the list handler returns for
    the same token the list it returned before, with the updated task where
    the old one was. *)
Theorem update_keeps_place_in_list (task_id : Z) (task_data : TaskCreate.t)
  (token : string) (now : datetime) (s s' : db) (task' : Task.t) :
  reachable s ->
  update_task task_id task_data token now s = (Return task', s') ->
  exists newer old older,
    Task.id old = task_id /\
    get_tasks token s = (Return (newer ++ old :: older), s) /\
    get_tasks token s' = (Return (newer ++ task' :: older), s').
Proof.
  intros Hr H. apply reachable_consistent in Hr.
  destruct (update_task_cases task_id task_data token now s)
    as [[e He]|(user & l1 & task & l2 & Hu & (Ht & Hp & _) & Heq)]; [congruence|].
  rewrite Heq in H. inversion H. subst task' s'. clear H.
  apply is_task_of_true in Hp. destruct Hp as [Hid Hown].
  pose proof (task_ids_increase s Hr) as Hs. rewrite Ht in Hs.
  exists (rev (filter (owned_by (User.id user)) l2)), task,
         (rev (filter (owned_by (User.id user)) l1)).
  split; [exact Hid|]. split.
  - rewrite (get_tasks_eq _ _ _ Hu), Ht, (listing_around _ _ _ _ Hown Hs).
    reflexivity.
  - assert (fst (get_current_user token
                   (set_tasks_db (l1 ++ overwrite task_data now task :: l2) s)) =
            Return user) as Hu'
        by (rewrite <- Hu; apply get_current_user_users; reflexivity).
    rewrite (get_tasks_eq _ _ _ Hu'). cbn [tasks_db set_tasks_db].
    rewrite listing_around; [reflexivity|exact Hown|].
    rewrite map_app in *. exact Hs.
Qed.

End Backend.

(** ** Instances

    A run of the server with two accounts, on which the properties above are
    instantiated. Any function serves as the digest. *)

Definition sample_digest (password : string) : string :=
  String.append "sha256:" password.

Definition morning : datetime :=
  {| year := 2024; month := 3; day := 7;
     hour := 9; minute := 5; second := 59; microsecond := 12 |}.

Definition noon : datetime :=
  {| year := 2024; month := 3; day := 7;
     hour := 12; minute := 0; second := 0; microsecond := 0 |}.

Definition ann : UserCreate.t := UserCreate.mk "a@x.com" "Ann" "pw1".
Definition bob : UserCreate.t := UserCreate.mk "b@x.com" "Bob" "pw2".
Definition ann_login : LoginRequest.t := LoginRequest.mk "a@x.com" "pw1".
Definition bob_login : LoginRequest.t := LoginRequest.mk "b@x.com" "pw2".
Definition ann_user : User.t := User.mk "a@x.com" "Ann" 1.
Definition bob_user : User.t := User.mk "b@x.com" "Bob" 2.

Definition buy_milk : TaskBody.t := TaskBody.mk "Buy milk" None None None.

Definition urgent_report : TaskBody.t :=
  TaskBody.mk "Report" (Some "quarterly") (Some "alta") (Some "en curso").

Definition registered : db :=
  run sample_digest [POST_register ann; POST_register bob] init_db.

Definition sample_trace : list request :=
  [POST_register ann; POST_login ann_login "T1"; POST_tasks urgent_report "T1" morning;
   POST_register bob; POST_login bob_login "T2"; POST_tasks buy_milk "T2" morning;
   POST_tasks buy_milk "T1" morning].

Definition sample : db := run sample_digest sample_trace init_db.

Definition first_task : Task.t :=
  Task.mk "Report" (Some "quarterly") "alta" "en curso" 1 1
    "2024-03-07 09:05" "2024-03-07 09:05".

Lemma sample_reachable : reachable sample_digest sample.
Proof. exists sample_trace. reflexivity. Qed.

Lemma registered_reachable : reachable sample_digest registered.
Proof. exists [POST_register ann; POST_register bob]. reflexivity. Qed.

Lemma sample_unheld_stale : unheld "stale" sample.
Proof.
  intros e ud Hin Htok. vm_compute in Hin.
  destruct Hin as [H|[H|[]]]; inversion H; subst; discriminate Htok.
Qed.

Lemma unheld_token_short_circuits_witness :
  unheld "stale" sample /\
  get_tasks "stale" sample = (Raise invalid_token, sample) /\
  delete_task 1 "stale" sample = (Raise invalid_token, sample).
Proof.
  split; [exact sample_unheld_stale|].
  destruct (unheld_token_short_circuits "stale" sample sample_unheld_stale)
    as (_ & Hlist & _ & _ & _ & Hdelete).
  split; [exact Hlist|exact (Hdelete 1)].
Defined.

Lemma foreign_task_is_not_found_witness :
  In first_task (tasks_db sample) /\
  fst (get_current_user "T2" sample) = Return bob_user /\
  get_task 1 "T2" sample = (Raise not_found, sample) /\
  delete_task 1 "T2" sample = (Raise not_found, sample).
Proof.
  assert (In first_task (tasks_db sample)) as Hin by (left; reflexivity).
  split; [exact Hin|]. split; [reflexivity|].
  destruct (foreign_task_is_not_found sample_digest sample first_task "a@x.com"
              (UserData.mk 1 "Ann" "sha256:pw1" (Some "T1")) "T2" bob_user
              sample_reachable Hin (or_introl eq_refl) eq_refl eq_refl)
    as (_ & Hget & _ & Hdelete).
  - discriminate.
  - split; [exact Hget|exact Hdelete].
Defined.

Lemma get_tasks_owned_descending_witness :
  fst (get_current_user "T1" sample) = Return ann_user /\
  exists tasks,
    get_tasks "T1" sample = (Return tasks, sample) /\
    map Task.id tasks = [3; 1] /\
    StronglySorted id_desc tasks.
Proof.
  split; [reflexivity|].
  destruct (get_tasks_owned_descending sample_digest "T1" sample ann_user
              sample_reachable eq_refl) as (tasks & Heq & _ & _ & Hsorted).
  exists tasks. split; [exact Heq|]. split; [|exact Hsorted].
  assert (fst (get_tasks "T1" sample) = Return tasks) as E by (rewrite Heq; reflexivity).
  vm_compute in E. inversion E. reflexivity.
Defined.

(** C5, as the claim states it, fails: the task created from a body that
    omits the priority and the status has neither the priority "medium" nor
    the status "pending". *)
Lemma create_task_defaults_are_not_english :
  TaskBody.priority buy_milk = None /\
  TaskBody.status buy_milk = None /\
  exists task s',
    create_task (TaskCreate_of_body buy_milk) "T1" morning sample = (Return task, s') /\
    Task.priority task <> "medium" /\
    Task.status task <> "pending".
Proof.
  split; [reflexivity|]. split; [reflexivity|].
  eexists. eexists.
  split; [exact (create_task_eq _ "T1" morning sample ann_user eq_refl)|].
  split; discriminate.
Qed.

Lemma create_task_defaults_witness :
  fst (get_current_user "T1" sample) = Return ann_user /\
  exists task s',
    create_task (TaskCreate_of_body buy_milk) "T1" morning sample = (Return task, s') /\
    Task.priority task = "media" /\
    Task.status task = "pendiente".
Proof.
  split; [reflexivity|].
  destruct (create_task_defaults buy_milk "T1" morning sample ann_user
              eq_refl eq_refl eq_refl) as (task & s' & Heq & _ & Hp & Hs).
  exists task, s'. auto.
Defined.

Definition only_title : TaskBody.t := TaskBody.mk "Report v2" None None None.

Definition first_task_updated : Task.t :=
  Task.mk "Report v2" None "media" "pendiente" 1 1
    "2024-03-07 09:05" "2024-03-07 12:00".

Lemma sample_update :
  update_task 1 (TaskCreate_of_body only_title) "T1" noon sample =
  (Return first_task_updated,
   set_tasks_db (first_task_updated :: tl (tasks_db sample)) sample).
Proof. vm_compute. reflexivity. Qed.

Lemma update_task_frame_witness :
  update_task 1 (TaskCreate_of_body only_title) "T1" noon sample =
  (Return first_task_updated,
   set_tasks_db (first_task_updated :: tl (tasks_db sample)) sample) /\
  exists task,
    In task (tasks_db sample) /\
    Task.id first_task_updated = Task.id task /\
    Task.user_id first_task_updated = Task.user_id task /\
    Task.created_at first_task_updated = Task.created_at task.
Proof.
  split; [exact sample_update|].
  destruct (update_task_frame 1 (TaskCreate_of_body only_title) "T1" noon sample _ _
              sample_update)
    as (user & l1 & task & l2 & _ & Hstore & _ & _ & Hsame & _).
  exists task. split; [|exact Hsame].
  rewrite Hstore. apply in_or_app. right. left. reflexivity.
Defined.

Lemma update_task_replaces_omitted_witness :
  fst (get_task 1 "T1" sample) = Return first_task /\
  Task.description first_task = Some "quarterly" /\
  Task.priority first_task = "alta" /\
  Task.status first_task = "en curso" /\
  exists task' s',
    update_task 1 (TaskCreate_of_body only_title) "T1" noon sample = (Return task', s') /\
    get_task 1 "T1" s' = (Return task', s') /\
    Task.description task' = None /\
    Task.priority task' = "media" /\
    Task.status task' = "pendiente".
Proof.
  split; [reflexivity|]. repeat (split; [reflexivity|]).
  destruct (update_task_replaces_omitted 1 only_title "T1" noon sample first_task
              eq_refl) as (task' & s' & Hupdate & Hget & _ & Hd & Hp & Hs).
  exists task', s'. split; [exact Hupdate|]. split; [exact Hget|].
  split; [exact (Hd eq_refl)|].
  split; [exact (proj2 (Hp eq_refl))|exact (proj2 (Hs eq_refl))].
Defined.

Lemma register_duplicate_or_fresh_witness :
  dict_contains (UserCreate.email ann) (users_db sample) = true /\
  register sample_digest (UserCreate.mk "a@x.com" "Impostor" "other") sample =
  (Raise duplicate_account, sample) /\
  dict_contains "c@x.com" (users_db sample) = false /\
  fst (register sample_digest (UserCreate.mk "c@x.com" "Cy" "pw3") sample) =
  Return (RegisterResponse.mk "Usuario registrado exitosamente" 3).
Proof.
  split; [reflexivity|].
  destruct (register_duplicate_or_fresh sample_digest
              (UserCreate.mk "a@x.com" "Impostor" "other") sample sample_reachable)
    as (_ & Hdup & _).
  split; [exact (proj2 (Hdup _ eq_refl))|].
  split; [reflexivity|].
  destruct (register_duplicate_or_fresh sample_digest
              (UserCreate.mk "c@x.com" "Cy" "pw3") sample sample_reachable)
    as (_ & _ & Hfresh).
  destruct (Hfresh eq_refl) as [Heq _]. rewrite Heq. reflexivity.
Defined.

Lemma sample_delete :
  delete_task 1 "T1" sample =
  (Return (DeleteResponse.mk "Tarea eliminada" first_task),
   set_tasks_db (tl (tasks_db sample)) sample).
Proof. vm_compute. reflexivity. Qed.

Lemma deleted_task_stays_not_found_witness :
  delete_task 1 "T1" sample =
  (Return (DeleteResponse.mk "Tarea eliminada" first_task),
   set_tasks_db (tl (tasks_db sample)) sample) /\
  let later :=
    run sample_digest [POST_tasks buy_milk "T1" noon; POST_tasks buy_milk "T2" noon]
      (set_tasks_db (tl (tasks_db sample)) sample) in
  map Task.id (tasks_db later) = [2; 3; 4; 5] /\
  get_task 1 "T1" later = (Raise not_found, later) /\
  delete_task 1 "T2" later = (Raise not_found, later).
Proof.
  split; [exact sample_delete|]. intros later. split; [reflexivity|].
  destruct (deleted_task_stays_not_found sample_digest 1 "T1" sample _ _
              sample_reachable sample_delete) as (_ & _ & Hafter).
  split.
  - exact (proj1 (Hafter [POST_tasks buy_milk "T1" noon; POST_tasks buy_milk "T2" noon]
                    "T1")).
  - exact (proj2 (proj2 (Hafter [POST_tasks buy_milk "T1" noon;
                                 POST_tasks buy_milk "T2" noon]
                           "T2"))).
Defined.

Lemma registered_unheld (token : string) : unheld token registered.
Proof.
  intros e ud Hin Htok. vm_compute in Hin.
  destruct Hin as [H|[H|[]]]; inversion H; subst; discriminate Htok.
Qed.

Lemma login_token_resolves_until_next_login_witness :
  dict_get "a@x.com" (users_db registered) =
  Some (UserData.mk 1 "Ann" (sample_digest "pw1") None) /\
  exists s1 s2,
    login sample_digest ann_login "T1" registered =
    (Return (LoginResponse.mk "Login exitoso" "T1" ann_user), s1) /\
    get_current_user "T1" s1 = (Return ann_user, s1) /\
    login sample_digest ann_login "T3"
      (run sample_digest
         [POST_login bob_login "T2"; POST_tasks buy_milk "T1" morning] s1) =
    (Return (LoginResponse.mk "Login exitoso" "T3" ann_user), s2) /\
    get_current_user "T1" s2 = (Raise invalid_token, s2).
Proof.
  split; [reflexivity|].
  destruct (login_token_resolves_until_next_login sample_digest registered
              "a@x.com" "pw1" (UserData.mk 1 "Ann" (sample_digest "pw1") None)
              "T1" "T3" [POST_login bob_login "T2"; POST_tasks buy_milk "T1" morning]
              registered_reachable eq_refl eq_refl (registered_unheld "T1"))
    as (s1 & s2 & H1 & H2 & H3 & H4 & _).
  - repeat constructor; discriminate.
  - discriminate.
  - exists s1, s2. repeat split; assumption.
Defined.

(** *** Instances of the further properties *)

Ltac unheld_by_cases :=
  let e := fresh "e" in
  let ud := fresh "ud" in
  let Hin := fresh "Hin" in
  let Htok := fresh "Htok" in
  intros e ud Hin Htok; vm_compute in Hin;
  repeat (destruct Hin as [Hin|Hin];
          [inversion Hin; subst; discriminate Htok|]);
  exact Hin.

Definition bob_account : UserData.t :=
  UserData.mk 2 "Bob" (sample_digest "pw2") (Some "T2").

Definition second_task : Task.t :=
  Task.mk "Buy milk" None "media" "pendiente" 2 2
    "2024-03-07 09:05" "2024-03-07 09:05".

Definition third_task : Task.t :=
  Task.mk "Buy milk" None "media" "pendiente" 3 1
    "2024-03-07 09:05" "2024-03-07 09:05".

Lemma sample_fresh_draws : fresh_draws sample_digest sample_trace init_db.
Proof. repeat split; unheld_by_cases. Qed.

Lemma sample_unheld_new : unheld "T7" sample.
Proof. unheld_by_cases. Qed.

Lemma held_token_resolves_to_its_holder_witness :
  In ("b@x.com", bob_account) (users_db sample) /\
  get_current_user "T2" sample = (Return bob_user, sample).
Proof.
  assert (In ("b@x.com", bob_account) (users_db sample)) as Hin
      by (right; left; reflexivity).
  split; [exact Hin|].
  exact (proj2 (held_token_resolves_to_its_holder sample_digest sample_trace
                  "b@x.com" bob_account "T2" sample_fresh_draws Hin eq_refl)).
Defined.

Lemma logout_ends_the_session_witness :
  fst (get_current_user "T1" sample) = Return ann_user /\
  exists s',
    logout "T1" sample = (Return "Logout exitoso", s') /\
    get_current_user "T1" s' = (Raise invalid_token, s') /\
    logout "T1" s' = (Raise invalid_token, s').
Proof.
  split; [reflexivity|].
  destruct (logout_ends_the_session sample_digest sample_trace "T1" ann_user
              sample_fresh_draws eq_refl) as (s' & H1 & _ & H2 & _ & H3 & _).
  exists s'. auto.
Defined.

Lemma sample_wrong_password (account : UserData.t) :
  dict_get "a@x.com" (users_db sample) = Some account ->
  UserData.password_hash account <> sample_digest "guess".
Proof. intros H. vm_compute in H. inversion H; subst. discriminate. Qed.

Lemma login_rejects_bad_credentials_witness :
  login sample_digest (LoginRequest.mk "a@x.com" "guess") "T9" sample =
  (Raise invalid_credentials, sample) /\
  login sample_digest (LoginRequest.mk "nobody@x.com" "pw1") "T9" sample =
  (Raise invalid_credentials, sample).
Proof.
  split.
  - exact (proj1 (proj2 (proj2
             (login_rejects_bad_credentials sample_digest
                (LoginRequest.mk "a@x.com" "guess") "T9" sample
                sample_wrong_password)))).
  - refine (proj1 (proj2 (proj2
             (login_rejects_bad_credentials sample_digest
                (LoginRequest.mk "nobody@x.com" "pw1") "T9" sample _)))).
    intros account H. vm_compute in H. discriminate H.
Defined.

Lemma login_keeps_other_sessions_witness :
  fst (get_current_user "T2" sample) = Return bob_user /\
  get_current_user "T2" (snd (login sample_digest ann_login "T5" sample)) =
  (Return bob_user, snd (login sample_digest ann_login "T5" sample)).
Proof.
  split; [reflexivity|].
  refine (proj1 (login_keeps_other_sessions sample_digest ann_login "T5" "T2" sample
                   bob_user eq_refl _ _)); discriminate.
Defined.

Lemma register_then_login_witness :
  dict_contains "c@x.com" (users_db sample) = false /\
  exists s1 s2,
    register sample_digest (UserCreate.mk "c@x.com" "Cy" "pw3") sample =
    (Return (RegisterResponse.mk "Usuario registrado exitosamente" 3), s1) /\
    fst (get_current_user "T1" s1) = Return ann_user /\
    fst (get_current_user "T2" s1) = Return bob_user /\
    login sample_digest (LoginRequest.mk "c@x.com" "pw3") "T7" s1 =
    (Return (LoginResponse.mk "Login exitoso" "T7" (User.mk "c@x.com" "Cy" 3)), s2) /\
    get_current_user "T7" s2 = (Return (User.mk "c@x.com" "Cy" 3), s2).
Proof.
  split; [reflexivity|].
  destruct (register_then_login sample_digest (UserCreate.mk "c@x.com" "Cy" "pw3")
              "T7" sample eq_refl sample_unheld_new)
    as (s1 & s2 & H1 & _ & H2 & H3 & _ & Hsame & _).
  exists s1, s2. split; [exact H1|].
  split; [rewrite (Hsame "T1"); reflexivity|].
  split; [rewrite (Hsame "T2"); reflexivity|].
  split; [exact H2|exact H3].
Defined.

Lemma account_is_permanent_witness :
  dict_get "a@x.com" (users_db registered) =
  Some (UserData.mk 1 "Ann" (sample_digest "pw1") None) /\
  register sample_digest (UserCreate.mk "a@x.com" "Impostor" "other")
    (run sample_digest
       [POST_login ann_login "T1"; POST_logout "T1"; POST_tasks buy_milk "T1" noon]
       registered) =
  (Raise duplicate_account,
   run sample_digest
     [POST_login ann_login "T1"; POST_logout "T1"; POST_tasks buy_milk "T1" noon]
     registered).
Proof.
  split; [reflexivity|].
  destruct (account_is_permanent sample_digest "a@x.com"
              (UserData.mk 1 "Ann" (sample_digest "pw1") None)
              [POST_login ann_login "T1"; POST_logout "T1";
               POST_tasks buy_milk "T1" noon]
              registered eq_refl) as (account' & _ & _ & _ & H).
  exact (H "Impostor" "other").
Defined.

Lemma get_tasks_is_reverse_creation_order_witness :
  fst (get_current_user "T1" sample) = Return ann_user /\
  get_tasks "T1" sample = (Return [third_task; first_task], sample).
Proof.
  split; [reflexivity|].
  exact (get_tasks_is_reverse_creation_order sample_digest "T1" sample ann_user
           sample_reachable eq_refl).
Defined.

Lemma create_then_get_witness :
  fst (get_current_user "T2" sample) = Return bob_user /\
  exists task s',
    create_task (TaskCreate_of_body urgent_report) "T2" noon sample =
    (Return task, s') /\
    get_task (Task.id task) "T2" s' = (Return task, s') /\
    get_tasks "T2" s' = (Return [task; second_task], s').
Proof.
  split; [reflexivity|].
  destruct (create_then_get sample_digest (TaskCreate_of_body urgent_report) "T2"
              noon sample bob_user sample_reachable eq_refl)
    as (task & s' & before & H1 & H2 & H3 & H4).
  exists task, s'. split; [exact H1|]. split; [exact H2|].
  assert (before = [second_task]) as <-; [|exact H4].
  assert (fst (get_tasks "T2" sample) = Return before) as E
      by (rewrite H3; reflexivity).
  vm_compute in E. inversion E. reflexivity.
Defined.

Lemma task_owner_is_immutable_witness :
  In first_task (tasks_db sample) /\
  In first_task_updated
    (tasks_db (run sample_digest [PUT_task 1 only_title "T1" noon] sample)) /\
  Task.user_id first_task_updated = Task.user_id first_task /\
  Task.created_at first_task_updated = Task.created_at first_task.
Proof.
  assert (In first_task (tasks_db sample)) as H1 by (left; reflexivity).
  assert (In first_task_updated
            (tasks_db (run sample_digest [PUT_task 1 only_title "T1" noon] sample)))
    as H2 by (left; reflexivity).
  split; [exact H1|]. split; [exact H2|].
  exact (task_owner_is_immutable sample_digest sample first_task
           [PUT_task 1 only_title "T1" noon] first_task_updated
           sample_reachable H1 H2 eq_refl).
Defined.

Lemma unassigned_id_is_not_found_witness :
  current_task_id sample = 4 /\
  get_task 4 "T1" sample = (Raise not_found, sample) /\
  delete_task 0 "T1" sample = (Raise not_found, sample).
Proof.
  split; [reflexivity|]. split.
  - refine (proj1 (unassigned_id_is_not_found sample_digest 4 "T1" sample ann_user
                     sample_reachable eq_refl _)).
    right. vm_compute. discriminate.
  - refine (proj2 (proj2 (unassigned_id_is_not_found sample_digest 0 "T1" sample
                            ann_user sample_reachable eq_refl _))).
    left. reflexivity.
Defined.

Lemma other_listing_unchanged_witness :
  fst (get_tasks "T2" (serve sample_digest (DELETE_task 1 "T1") sample)) =
  Return [second_task] /\
  fst (get_tasks "T2" sample) = Return [second_task].
Proof.
  assert (fst (get_tasks "T2" sample) = Return [second_task]) as H by reflexivity.
  split; [|exact H]. rewrite <- H.
  refine (proj2 (other_listing_unchanged sample_digest (DELETE_task 1 "T1") sample
                   "T1" "T2" ann_user bob_user eq_refl eq_refl eq_refl _)).
  discriminate.
Defined.

Lemma account_ids_are_consecutive_witness :
  map account_id (users_db sample) = [1; 2] /\ current_user_id sample = 3.
Proof.
  exact (account_ids_are_consecutive sample_digest sample sample_reachable).
Defined.


Lemma update_keeps_place_in_list_witness :
  fst (get_tasks "T1" sample) = Return [third_task; first_task] /\
  exists newer old older,
    get_tasks "T1" sample = (Return (newer ++ old :: older), sample) /\
    fst (get_tasks "T1" (set_tasks_db (first_task_updated :: tl (tasks_db sample))
                           sample)) =
    Return (newer ++ first_task_updated :: older).
Proof.
  split; [reflexivity|].
  destruct (update_keeps_place_in_list sample_digest 1 (TaskCreate_of_body only_title)
              "T1" noon sample _ _ sample_reachable sample_update)
    as (newer & old & older & _ & H1 & H2).
  exists newer, old, older. split; [exact H1|]. rewrite H2. reflexivity.
Defined.

Lemma noon_is_a_clock_reading : clock_reading noon.
Proof. unfold clock_reading. simpl. lia. Qed.

Lemma morning_is_a_clock_reading : clock_reading morning.
Proof. unfold clock_reading. simpl. lia. Qed.

Lemma create_task_assigns_next_id_witness :
  fst (get_current_user "T2" sample) = Return bob_user /\
  current_task_id sample = 4 /\
  (exists task,
     fst (create_task (TaskCreate_of_body urgent_report) "T2" noon sample) =
     Return task /\
     Task.id task = 4 /\
     Task.user_id task = 2 /\
     Task.created_at task = "2024-03-07 12:00" /\
     Task.updated_at task = "2024-03-07 12:00" /\
     read_minute_stamp (Task.created_at task) = Some (2024, 3, 7, 12, 0)) /\
  strftime_minute morning <> strftime_minute noon.
Proof.
  destruct (create_task_assigns_next_id sample_digest)
    as (_ & Hcount & Hcreate & _ & Hiff & _).
  split; [reflexivity|].
  split; [rewrite (Hcount sample_trace : current_task_id sample = _); reflexivity|].
  split.
  - destruct (Hcreate (TaskCreate_of_body urgent_report) "T2" noon sample bob_user
                eq_refl) as (task & Heq & Hid & Huid & Hc & Hu & Hread).
    exists task. split; [rewrite Heq; reflexivity|].
    split; [rewrite Hid; reflexivity|]. split; [rewrite Huid; reflexivity|].
    split; [rewrite Hc; reflexivity|]. split; [rewrite Hu; reflexivity|].
    exact (proj1 (Hread noon_is_a_clock_reading)).
  - intros E.
    apply (Hiff morning noon morning_is_a_clock_reading noon_is_a_clock_reading) in E.
    destruct E as (_ & _ & _ & Eh & _). discriminate Eh.
Defined.
